(** * pyGravatar: a shallow embedding of [gravatar.py] and its properties

    The development follows the layout of the module:
    - the Python built-ins the module calls ([str.strip], [str.lower],
      [str.encode], [hashlib.md5], [urllib.parse.urlencode], subscripting,
      iteration, [+] and [==] on the values that occur);
    - the class [Gravatar]: constructor, option setters, [_link_to_img],
      [_get_profile], [profile] and the derived views;
    - the two exception classes and their [__str__];
    - the properties.

    Conventions.  A Python [str] is a Rocq [string] whose characters are the
    code points U+0000..U+00FF; [encode] is UTF-8 on that range.  A Python
    [int] is a [Z].  The interpreter is Python 3 (dictionaries keep insertion
    order, [int + str] raises [TypeError]).  Floating point values are left
    out. *)

From Stdlib Require Import ZArith List Bool Lia.
From Stdlib Require Import Strings.String Strings.Ascii Numbers.DecimalString.
Import ListNotations.

Local Open Scope string_scope.
Local Open Scope Z_scope.

(* ================================================================== *)
(** ** Python strings *)

Module PyStr.

Definition code (c : ascii) : Z := Z.of_N (N_of_ascii c).
Definition chr (z : Z) : ascii := ascii_of_N (Z.to_N z).

(** [str.isspace] on one character, for code points below 256. *)
Definition is_space (c : ascii) : bool :=
  let n := code c in
  ((9 <=? n) && (n <=? 13)) || ((28 <=? n) && (n <=? 32))
  || (n =? 133) || (n =? 160).

(** [str.lower] on one character, for code points below 256: the ASCII
    capitals and the Latin-1 capitals U+00C0..U+00DE except U+00D7. *)
Definition lower_char (c : ascii) : ascii :=
  let n := code c in
  if ((65 <=? n) && (n <=? 90))
     || ((192 <=? n) && (n <=? 222) && negb (n =? 215))
  then chr (n + 32) else c.

Fixpoint lower (s : string) : string :=
  match s with
  | EmptyString => EmptyString
  | String c r => String (lower_char c) (lower r)
  end.

Fixpoint lstrip (s : string) : string :=
  match s with
  | EmptyString => EmptyString
  | String c r => if is_space c then lstrip r else s
  end.

Fixpoint rstrip (s : string) : string :=
  match s with
  | EmptyString => EmptyString
  | String c r =>
      match rstrip r with
      | EmptyString => if is_space c then EmptyString else String c EmptyString
      | r' => String c r'
      end
  end.

(** [str.strip()] with no argument. *)
Definition strip (s : string) : string := rstrip (lstrip s).

(** [str.encode()]: UTF-8, one or two bytes per code point below 256. *)
Definition encode_char (c : ascii) : list Z :=
  let n := code c in
  if n <? 128 then [n]
  else [Z.lor 192 (Z.shiftr n 6); Z.lor 128 (Z.land n 63)].

Fixpoint encode (s : string) : list Z :=
  match s with
  | EmptyString => []
  | String c r => encode_char c ++ encode r
  end.

(** [str(n)] for an integer. *)
Definition of_int (z : Z) : string := NilZero.string_of_int (Z.to_int z).

(** [sep.join(l)]. *)
Fixpoint join (sep : string) (l : list string) : string :=
  match l with
  | [] => ""
  | [x] => x
  | x :: r => x ++ sep ++ join sep r
  end.

Definition hex_digit (upper : bool) (d : Z) : ascii :=
  if d <? 10 then chr (48 + d)
  else chr ((if upper then 55 else 87) + d).

(** Two hexadecimal digits of one byte. *)
Definition hex_byte (upper : bool) (b : Z) : string :=
  String (hex_digit upper (Z.shiftr b 4))
    (String (hex_digit upper (Z.land b 15)) EmptyString).

End PyStr.

(* ================================================================== *)
(** ** [hashlib.md5]: RFC 1321 on 32-bit words held in [Z] *)

Module MD5.

Definition mask32 : Z := 0xffffffff.
Definition w32 (x : Z) : Z := Z.land x mask32.
Definition add32 (x y : Z) : Z := w32 (x + y).
Definition not32 (x : Z) : Z := Z.lxor x mask32.
Definition rotl32 (x c : Z) : Z :=
  w32 (Z.lor (Z.shiftl x c) (Z.shiftr x (32 - c))).

Definition K : list Z :=
  [ 0xd76aa478; 0xe8c7b756; 0x242070db; 0xc1bdceee;
    0xf57c0faf; 0x4787c62a; 0xa8304613; 0xfd469501;
    0x698098d8; 0x8b44f7af; 0xffff5bb1; 0x895cd7be;
    0x6b901122; 0xfd987193; 0xa679438e; 0x49b40821;
    0xf61e2562; 0xc040b340; 0x265e5a51; 0xe9b6c7aa;
    0xd62f105d; 0x02441453; 0xd8a1e681; 0xe7d3fbc8;
    0x21e1cde6; 0xc33707d6; 0xf4d50d87; 0x455a14ed;
    0xa9e3e905; 0xfcefa3f8; 0x676f02d9; 0x8d2a4c8a;
    0xfffa3942; 0x8771f681; 0x6d9d6122; 0xfde5380c;
    0xa4beea44; 0x4bdecfa9; 0xf6bb4b60; 0xbebfbc70;
    0x289b7ec6; 0xeaa127fa; 0xd4ef3085; 0x04881d05;
    0xd9d4d039; 0xe6db99e5; 0x1fa27cf8; 0xc4ac5665;
    0xf4292244; 0x432aff97; 0xab9423a7; 0xfc93a039;
    0x655b59c3; 0x8f0ccc92; 0xffeff47d; 0x85845dd1;
    0x6fa87e4f; 0xfe2ce6e0; 0xa3014314; 0x4e0811a1;
    0xf7537e82; 0xbd3af235; 0x2ad7d2bb; 0xeb86d391 ].

Definition shifts : list Z :=
  [ 7; 12; 17; 22; 7; 12; 17; 22; 7; 12; 17; 22; 7; 12; 17; 22;
    5;  9; 14; 20; 5;  9; 14; 20; 5;  9; 14; 20; 5;  9; 14; 20;
    4; 11; 16; 23; 4; 11; 16; 23; 4; 11; 16; 23; 4; 11; 16; 23;
    6; 10; 15; 21; 6; 10; 15; 21; 6; 10; 15; 21; 6; 10; 15; 21 ].

Record state := mkState { sA : Z; sB : Z; sC : Z; sD : Z }.

Definition init : state :=
  mkState 0x67452301 0xefcdab89 0x98badcfe 0x10325476.

(** The [n] low bytes of [x], least significant first. *)
Fixpoint le_bytes (n : nat) (x : Z) : list Z :=
  match n with
  | O => []
  | S n' => Z.land x 255 :: le_bytes n' (Z.shiftr x 8)
  end.

(** Padding: the byte 0x80, zeros up to 56 modulo 64, then the length in
    bits as eight little-endian bytes. *)
Definition pad (msg : list Z) : list Z :=
  let len := Z.of_nat (List.length msg) in
  msg ++ [128] ++ repeat 0 (Z.to_nat ((55 - len) mod 64))
      ++ le_bytes 8 (Z.land (8 * len) 0xffffffffffffffff).

(** Little-endian 32-bit words of a block. *)
Fixpoint words (n : nat) (bs : list Z) : list Z :=
  match n with
  | O => []
  | S n' =>
      match bs with
      | b0 :: b1 :: b2 :: b3 :: r =>
          (b0 + Z.shiftl b1 8 + Z.shiftl b2 16 + Z.shiftl b3 24)
            :: words n' r
      | _ => []
      end
  end.

Definition round (M : list Z) (st : state) (i : nat) : state :=
  let '(mkState a b c d) := st in
  let iz := Z.of_nat i in
  let '(f, g) :=
    if iz <? 16 then (Z.lor (Z.land b c) (Z.land (not32 b) d), iz)
    else if iz <? 32 then
      (Z.lor (Z.land d b) (Z.land (not32 d) c), (5 * iz + 1) mod 16)
    else if iz <? 48 then (Z.lxor (Z.lxor b c) d, (3 * iz + 5) mod 16)
    else (Z.lxor c (Z.lor b (not32 d)), (7 * iz) mod 16) in
  let f' := add32 (add32 (add32 f a) (nth i K 0)) (nth (Z.to_nat g) M 0) in
  mkState d (add32 b (rotl32 f' (nth i shifts 0))) b c.

Definition block (st : state) (bs : list Z) : state :=
  let M := words 16 bs in
  let '(mkState a b c d) := fold_left (round M) (seq 0 64) st in
  mkState (add32 (sA st) a) (add32 (sB st) b)
          (add32 (sC st) c) (add32 (sD st) d).

Fixpoint blocks (n : nat) (st : state) (bs : list Z) : state :=
  match n with
  | O => st
  | S n' => blocks n' (block st (firstn 64 bs)) (skipn 64 bs)
  end.

(** [md5(msg).digest()]: sixteen bytes. *)
Definition digest (msg : list Z) : list Z :=
  let p := pad msg in
  let '(mkState a b c d) := blocks (List.length p / 64)%nat init p in
  le_bytes 4 a ++ le_bytes 4 b ++ le_bytes 4 c ++ le_bytes 4 d.

(** [md5(msg).hexdigest()]: lower-case hexadecimal. *)
Definition hexdigest (msg : list Z) : string :=
  String.concat "" (map (PyStr.hex_byte false) (digest msg)).

End MD5.

(* ================================================================== *)
(** ** Python values, exceptions and the operators the module applies *)

(** The values [json.load] produces (floats apart). A dictionary is kept as
    an association list in insertion order; lookup takes the first binding
    of a key. *)
#[warnings="-register-all"]
Inductive pyval : Type :=
| PNone
| PBool (b : bool)
| PInt (z : Z)
| PStr (s : string)
| PList (l : list pyval)
| PDict (d : list (string * pyval)).

(** The exceptions that occur: the two classes of the module, the
    built-in ones raised by subscripting, iteration and [+], and whatever
    [urlopen] and [json.load] raise ([URLError], [ValueError], ...). *)
Inductive exn : Type :=
| InvalidRatingError (value : string)
| InvalidSizeError (value : Z)
| KeyError (key : pyval)
| IndexError
| TypeError
| FetchError (what : string).

Inductive result (A : Type) : Type :=
| Ok (a : A)
| Raise (e : exn).
Arguments Ok {A} a.
Arguments Raise {A} e.

Definition rbind {A B} (r : result A) (k : A -> result B) : result B :=
  match r with
  | Ok a => k a
  | Raise e => Raise e
  end.

Module Py.

Fixpoint dict_get {V : Type} (k : string) (d : list (string * V))
  : option V :=
  match d with
  | [] => None
  | (k', v) :: r => if String.eqb k k' then Some v else dict_get k r
  end.

(** [d[k] = v]: replaces the binding of [k] or appends a new one. *)
Fixpoint dict_set {V : Type} (k : string) (v : V) (d : list (string * V))
  : list (string * V) :=
  match d with
  | [] => [(k, v)]
  | (k', v') :: r =>
      if String.eqb k k' then (k, v) :: r else (k', v') :: dict_set k v r
  end.

(** Sequence indexing [l[i]], negative indices counting from the end. *)
Definition index {A : Type} (l : list A) (i : Z) : result A :=
  let n := Z.of_nat (List.length l) in
  let j := if i <? 0 then i + n else i in
  if (0 <=? j) && (j <? n)
  then match nth_error l (Z.to_nat j) with
       | Some a => Ok a
       | None => Raise IndexError
       end
  else Raise IndexError.

Definition chars (s : string) : list pyval :=
  map (fun c => PStr (String c EmptyString)) (list_ascii_of_string s).

Definition int_of_bool (b : bool) : Z := if b then 1 else 0.

(** [v[k]]. *)
Definition getitem (v k : pyval) : result pyval :=
  match v with
  | PDict d =>
      match k with
      | PStr s => match dict_get s d with
                  | Some x => Ok x
                  | None => Raise (KeyError k)
                  end
      | PList _ | PDict _ => Raise TypeError
      | _ => Raise (KeyError k)
      end
  | PList l =>
      match k with
      | PInt i => index l i
      | PBool b => index l (int_of_bool b)
      | _ => Raise TypeError
      end
  | PStr s =>
      match k with
      | PInt i => index (chars s) i
      | PBool b => index (chars s) (int_of_bool b)
      | _ => Raise TypeError
      end
  | _ => Raise TypeError
  end.

(** The elements [for a in v] visits. *)
Definition iter (v : pyval) : result (list pyval) :=
  match v with
  | PList l => Ok l
  | PDict d => Ok (map (fun kv => PStr (fst kv)) d)
  | PStr s => Ok (chars s)
  | _ => Raise TypeError
  end.

(** [v == s] for a [str] right operand [s]. *)
Definition eq_str (v : pyval) (s : string) : bool :=
  match v with
  | PStr t => String.eqb t s
  | _ => false
  end.

(** [a + b]. *)
Definition add (a b : pyval) : result pyval :=
  match a, b with
  | PStr x, PStr y => Ok (PStr (x ++ y))
  | PInt x, PInt y => Ok (PInt (x + y))
  | PInt x, PBool y => Ok (PInt (x + int_of_bool y))
  | PBool x, PInt y => Ok (PInt (int_of_bool x + y))
  | PBool x, PBool y => Ok (PInt (int_of_bool x + int_of_bool y))
  | PList x, PList y => Ok (PList (x ++ y))
  | _, _ => Raise TypeError
  end.

(** [x in l] for a list of strings. *)
Definition str_in (x : string) (l : list string) : bool :=
  existsb (String.eqb x) l.

End Py.

(* ================================================================== *)
(** ** [urllib.parse.urlencode] *)

Module Url.

(** The values put in the options dictionary: the size and two strings. *)
Inductive optval : Type :=
| OInt (z : Z)
| OStr (s : string).

(** [str(v)]. *)
Definition str (v : optval) : string :=
  match v with
  | OInt z => PyStr.of_int z
  | OStr s => s
  end.

(** The bytes [quote_plus] never escapes: letters, digits and [_.-~]. *)
Definition always_safe (b : Z) : bool :=
  ((48 <=? b) && (b <=? 57)) || ((65 <=? b) && (b <=? 90))
  || ((97 <=? b) && (b <=? 122))
  || (b =? 95) || (b =? 46) || (b =? 45) || (b =? 126).

Definition quote_byte (b : Z) : string :=
  if always_safe b then String (PyStr.chr b) EmptyString
  else if b =? 32 then "+"
  else String "%" (PyStr.hex_byte true b).

Definition quote_plus (s : string) : string :=
  String.concat "" (map quote_byte (PyStr.encode s)).

Definition urlencode (query : list (string * optval)) : string :=
  PyStr.join "&"
    (map (fun kv => quote_plus (fst kv) ++ "=" ++ quote_plus (str (snd kv)))
         query).

End Url.

(* ================================================================== *)
(** ** A state and exception monad

    A method is a function from the state it may mutate to its outcome and
    the state it leaves.  An exception leaves the state as it was when the
    exception was raised: assignments made before are kept. *)

Definition M (S A : Type) : Type := S -> result A * S.

Definition ret {S A} (a : A) : M S A := fun s => (Ok a, s).

Definition raise {S A} (e : exn) : M S A := fun s => (Raise e, s).

Definition lift {S A} (r : result A) : M S A := fun s => (r, s).

Definition bind {S A B} (m : M S A) (k : A -> M S B) : M S B :=
  fun s =>
    match m s with
    | (Ok a, s') => k a s'
    | (Raise e, s') => (Raise e, s')
    end.

Definition get {S} : M S S := fun s => (Ok s, s).

Definition modify {S} (f : S -> S) : M S unit := fun s => (Ok tt, f s).

(** [try: body except <catches>: handler]. *)
Definition try_except {S A} (body : M S A) (catches : exn -> bool)
  (handler : M S A) : M S A :=
  fun s =>
    match body s with
    | (Raise e, s') => if catches e then handler s' else (Raise e, s')
    | out => out
    end.

Declare Scope py_scope.
Delimit Scope py_scope with py.
Notation "x <- m ;; k" := (bind m (fun x => k))
  (at level 61, m at next level, right associativity) : py_scope.
Notation "m ;; k" := (bind m (fun _ => k))
  (at level 61, right associativity) : py_scope.
Local Open Scope py_scope.

Definition is_KeyError (e : exn) : bool :=
  match e with
  | KeyError _ => true
  | _ => false
  end.

Definition any_exception (e : exn) : bool := true.

(* ================================================================== *)
(** ** The module [gravatar] *)

Definition BASE_URL : string := "http://www.gravatar.com/avatar/".
Definition SECURE_BASE_URL : string := "https://secure.gravatar.com/avatar/".
Definition PROFILE_URL : string := "http://www.gravatar.com/".
Definition RATINGS : list string := ["g"; "pg"; "r"; "x"].
Definition MAX_SIZE : Z := 512.
Definition MIN_SIZE : Z := 1.
Definition DEFAULTS : list string :=
  ["404"; "mm"; "identicon"; "monsterid"; "wavatar"; "retro"].

(** The attributes of an instance.  [_profile] holds [PNone] until a
    profile has been stored. *)
Record Gravatar : Type := mkGravatar {
  _email_hash : string;
  _secure : bool;
  _rating : string;
  _size : Z;
  _default : option string;
  _thumb : string;
  _profile : pyval
}.

Definition with_secure (self : Gravatar) (v : bool) : Gravatar :=
  mkGravatar (_email_hash self) v (_rating self) (_size self)
             (_default self) (_thumb self) (_profile self).
Definition with_rating (self : Gravatar) (v : string) : Gravatar :=
  mkGravatar (_email_hash self) (_secure self) v (_size self)
             (_default self) (_thumb self) (_profile self).
Definition with_size (self : Gravatar) (v : Z) : Gravatar :=
  mkGravatar (_email_hash self) (_secure self) (_rating self) v
             (_default self) (_thumb self) (_profile self).
Definition with_default (self : Gravatar) (v : option string) : Gravatar :=
  mkGravatar (_email_hash self) (_secure self) (_rating self) (_size self)
             v (_thumb self) (_profile self).
Definition with_thumb (self : Gravatar) (v : string) : Gravatar :=
  mkGravatar (_email_hash self) (_secure self) (_rating self) (_size self)
             (_default self) v (_profile self).
Definition with_profile (self : Gravatar) (v : pyval) : Gravatar :=
  mkGravatar (_email_hash self) (_secure self) (_rating self) (_size self)
             (_default self) (_thumb self) v.

(** The read-only properties. *)
Definition secure (self : Gravatar) : bool := _secure self.
Definition rating (self : Gravatar) : string := _rating self.
Definition size (self : Gravatar) : Z := _size self.
Definition default (self : Gravatar) : option string := _default self.
Definition thumb (self : Gravatar) : string := _thumb self.
Definition hash (self : Gravatar) : string := _email_hash self.

(** [md5(email.strip().lower().encode()).hexdigest()]. *)
Definition email_hash (email : string) : string :=
  MD5.hexdigest (PyStr.encode (PyStr.lower (PyStr.strip email))).

(** [_link_to_img] as a function of the attributes it reads. *)
Definition link_to_img (self : Gravatar) : result string :=
  if negb (Py.str_in (PyStr.lower (rating self)) RATINGS)
  then Raise (InvalidRatingError (rating self))
  else if negb ((MIN_SIZE <=? size self) && (size self <=? MAX_SIZE))
  then Raise (InvalidSizeError (size self))
  else
    let url := if secure self then SECURE_BASE_URL else BASE_URL in
    let options := [("s", Url.OInt (size self)); ("r", Url.OStr (rating self))] in
    let options :=
      match default self with
      | Some d => Py.dict_set "d" (Url.OStr d) options
      | None => options
      end in
    Ok (url ++ hash self ++ "?" ++ Url.urlencode options).

Definition _link_to_img : M Gravatar string :=
  self <- get ;; lift (link_to_img self).

(** The constructor.  When [_link_to_img] raises, the exception leaves the
    constructor and the caller gets no instance. *)
Definition __init__ (email : string) (secure : bool) (rating : string)
  (size : Z) (default : option string) : result Gravatar :=
  let self := mkGravatar (email_hash email) secure rating size default
                         "" PNone in
  match (v <- _link_to_img ;; modify (fun self => with_thumb self v)) self with
  | (Ok _, self') => Ok (with_profile self' PNone)
  | (Raise e, _) => Raise e
  end.

(** [Gravatar(email)] with the default arguments. *)
Definition Gravatar_of_email (email : string) : result Gravatar :=
  __init__ email false "g" 80 None.

(** The setters. *)
Definition set_secure (value : bool) : M Gravatar unit :=
  modify (fun self => with_secure self value) ;;
  v <- _link_to_img ;;
  modify (fun self => with_thumb self v).

Definition set_rating (value : string) : M Gravatar unit :=
  modify (fun self => with_rating self value) ;;
  v <- _link_to_img ;;
  modify (fun self => with_thumb self v).

Definition set_size (value : Z) : M Gravatar unit :=
  modify (fun self => with_size self value) ;;
  v <- _link_to_img ;;
  modify (fun self => with_thumb self v).

Definition set_default (value : option string) : M Gravatar unit :=
  modify (fun self => with_default self value) ;;
  v <- _link_to_img ;;
  modify (fun self => with_thumb self v).

(** *** The network

    [json.load(urlopen(url))] is the one call that leaves the process.  The
    network is any function from the number of earlier calls and the URL to
    an outcome: a parsed document or an exception.  [calls] records the URLs
    requested so far. *)
Record Net : Type := mkNet {
  reply : nat -> string -> result pyval;
  calls : list string
}.

Definition World : Type := (Gravatar * Net)%type.

Definition json_load_urlopen (url : string) : M World pyval :=
  fun w =>
    let net := snd w in
    (reply net (List.length (calls net)) url,
     (fst w, mkNet (reply net) (calls net ++ [url]))).

Definition self_ : M World Gravatar := fun w => (Ok (fst w), w).

Definition store_profile (v : pyval) : M World unit :=
  modify (fun w => (with_profile (fst w) v, snd w)).

Definition is_None (v : pyval) : bool :=
  match v with
  | PNone => true
  | _ => false
  end.

Definition _get_profile : M World unit :=
  self <- self_ ;;
  let url := PROFILE_URL ++ hash self ++ ".json" in
  try_except
    (profile <- json_load_urlopen url ;;
     entry <- lift (Py.getitem profile (PStr "entry")) ;;
     first <- lift (Py.getitem entry (PInt 0)) ;;
     store_profile first)
    any_exception
    (store_profile (PDict [])).

Definition profile : M World pyval :=
  self <- self_ ;;
  (if is_None (_profile self) then _get_profile else ret tt) ;;
  self <- self_ ;;
  ret (_profile self).

Definition urls : M World pyval :=
  try_except
    (p <- profile ;; lift (Py.getitem p (PStr "urls")))
    is_KeyError
    (ret (PList [])).

Definition accounts : M World pyval :=
  try_except
    (p <- profile ;; lift (Py.getitem p (PStr "accounts")))
    is_KeyError
    (ret (PList [])).

(** The list comprehension of [verified_accounts]: the elements are
    visited in order and the first failing subscript ends the loop. *)
Fixpoint verified_only (l : list pyval) : result (list pyval) :=
  match l with
  | [] => Ok []
  | a :: r =>
      rbind (Py.getitem a (PStr "verified")) (fun v =>
      rbind (verified_only r) (fun r' =>
      Ok (if Py.eq_str v "true" then a :: r' else r')))
  end.

Definition verified_accounts : M World pyval :=
  accs <- accounts ;;
  items <- lift (Py.iter accs) ;;
  l <- lift (verified_only items) ;;
  ret (PList l).

Definition ims : M World pyval :=
  try_except
    (p <- profile ;; lift (Py.getitem p (PStr "accounts")))
    is_KeyError
    (ret (PList [])).

Definition photos : M World pyval :=
  try_except
    (p <- profile ;; lift (Py.getitem p (PStr "photos")))
    is_KeyError
    (ret (PList [])).

Definition emails : M World pyval :=
  try_except
    (p <- profile ;; lift (Py.getitem p (PStr "emails")))
    is_KeyError
    (ret (PList [])).

(** *** The exception classes: [__str__] *)

Definition InvalidRatingError_str (value : string) : result pyval :=
  Py.add (PStr value) (PStr " is not a valid gravatar rating").

Definition InvalidSizeError_str (value : Z) : result pyval :=
  Py.add (PInt value) (PStr " is not a valid image size").

(* ================================================================== *)
(** ** Reading a URL back: its query parameters

    The reading a server makes of the thumbnail URL: the query is what
    follows the first question mark, its fields are separated by
    ampersands, and a field is a name and a value separated by the first
    equals sign. *)

Module Query.

(** [split_at c s]: the text before the first [c], and the text after it
    when there is one. *)
Fixpoint split_at (c : ascii) (s : string) : string * option string :=
  match s with
  | EmptyString => (EmptyString, None)
  | String a r =>
      if Ascii.eqb a c then (EmptyString, Some r)
      else let '(h, t) := split_at c r in (String a h, t)
  end.

(** The fields between occurrences of [c]. *)
Fixpoint fields (c : ascii) (s : string) : list string :=
  match s with
  | EmptyString => [EmptyString]
  | String a r =>
      if Ascii.eqb a c then EmptyString :: fields c r
      else match fields c r with
           | h :: t => String a h :: t
           | [] => [String a EmptyString]
           end
  end.

Definition pair_of (field : string) : string * string :=
  let '(k, v) := split_at "=" field in
  (k, match v with Some x => x | None => EmptyString end).

Definition params (url : string) : list (string * string) :=
  match snd (split_at "?" url) with
  | Some q => map pair_of (fields "&" q)
  | None => []
  end.

Definition param (name url : string) : option string :=
  Py.dict_get name (params url).

End Query.

(* ================================================================== *)
(** ** Vocabulary of the statements and proofs *)

Section Vocabulary.

Import PyStr.

(** A string that is empty or starts with a character that is not white
    space. *)
Definition starts_clean (s : string) : Prop :=
  match s with
  | EmptyString => True
  | String c _ => is_space c = false
  end.

(** [has c s]: the character [c] occurs in [s]. *)
Fixpoint has (c : ascii) (s : string) : bool :=
  match s with
  | EmptyString => false
  | String a r => Ascii.eqb a c || has c r
  end.

(** The characters [urlencode] writes for a key or a value, and those of
    a hexadecimal digest: letters, digits and [-._~+%]. *)
Definition plain (a : ascii) : bool :=
  let n := code a in
  Url.always_safe n || (n =? 43) || (n =? 37).

Fixpoint all_plain (s : string) : bool :=
  match s with
  | EmptyString => true
  | String a r => plain a && all_plain r
  end.

(** A separator of a URL: the question mark, the ampersand, the equals
    sign. *)
Definition is_sep (c : ascii) : Prop :=
  c = "?"%char \/ c = "&"%char \/ c = "="%char.

(** [quote_plus], one character at a time. *)
Definition quote_char (c : ascii) : string :=
  String.concat "" (map Url.quote_byte (encode_char c)).

(** Strings [quote_plus] leaves as they are. *)
Fixpoint all_safe (s : string) : bool :=
  match s with
  | EmptyString => true
  | String a r => Url.always_safe (code a) && all_safe r
  end.

(** The ratings the validation lets through. *)
Definition accepted_ratings : list string :=
  ["g"; "G"; "pg"; "pG"; "Pg"; "PG"; "r"; "R"; "x"; "X"].

(** The thumbnail written out: origin, hash, then the query with the size,
    the rating as stored and, when set, the default image. *)
Definition origin (sec : bool) : string :=
  if sec then SECURE_BASE_URL else BASE_URL.

Definition written_query (r : string) (sz : Z) (d : option string) : string :=
  "s=" ++ of_int sz ++ "&r=" ++ r
  ++ match d with
     | Some x => "&d=" ++ Url.quote_plus x
     | None => ""
     end.

Definition written_url (h : string) (sec : bool) (r : string) (sz : Z)
  (d : option string) : string :=
  origin sec ++ h ++ "?" ++ written_query r sz d.

(** The four option setters as one operation. *)
Inductive mutation : Type :=
| SetSecure (v : bool)
| SetRating (v : string)
| SetSize (v : Z)
| SetDefault (v : option string).

Definition mutate (m : mutation) : M Gravatar unit :=
  match m with
  | SetSecure v => set_secure v
  | SetRating v => set_rating v
  | SetSize v => set_size v
  | SetDefault v => set_default v
  end.

Definition valid_rating (r : string) : bool :=
  Py.str_in (lower r) RATINGS.

Definition valid_size (sz : Z) : bool :=
  (MIN_SIZE <=? sz) && (sz <=? MAX_SIZE).

(** The URL [_get_profile] requests. *)
Definition profile_url (self : Gravatar) : string :=
  PROFILE_URL ++ hash self ++ ".json".

(** [profile['entry'][0]] of a fetched document, or the exception the
    fetch, the parse or the subscripts raised. *)
Definition first_entry (fetched : result pyval) : result pyval :=
  rbind fetched (fun doc =>
  rbind (Py.getitem doc (PStr "entry")) (fun entry =>
  Py.getitem entry (PInt 0))).

(** The value a view returns for a cached mapping: the binding of its
    key, or the empty list. *)
Definition item_or_empty (key : string) (d : list (string * pyval)) : pyval :=
  match Py.dict_get key d with
  | Some v => v
  | None => PList []
  end.

(** The [verified] field of an account, when the account is a mapping
    that has one. *)
Definition verified_field (a : pyval) : option pyval :=
  match a with
  | PDict e => Py.dict_get "verified" e
  | _ => None
  end.

(** The [verified] field is the string "true". *)
Definition verified_is_true (a : pyval) : bool :=
  match verified_field a with
  | Some (PStr t) => String.eqb t "true"
  | _ => false
  end.

(** A network that is down, and one that serves a document whose first
    entry is null. *)
Definition net_down : Net :=
  mkNet (fun _ _ => Raise (FetchError "unreachable")) [].

Definition net_null_entry : Net :=
  mkNet (fun _ _ => Ok (PDict [("entry", PList [PNone])])) [].

(** The instance of the docstring, as the constructor leaves it. *)
Definition gridaphobe : Gravatar :=
  mkGravatar "16b87da510d278999c892cdbdd55c1b6" false "g" 80 None
    "http://www.gravatar.com/avatar/16b87da510d278999c892cdbdd55c1b6?s=80&r=g"
    PNone.

(** A character of a lower-case hexadecimal digest. *)
Definition is_hex_lower (a : ascii) : bool :=
  let n := code a in
  ((48 <=? n) && (n <=? 57)) || ((97 <=? n) && (n <=? 102)).

Fixpoint all_hex_lower (s : string) : bool :=
  match s with
  | EmptyString => true
  | String a r => is_hex_lower a && all_hex_lower r
  end.

(** Setter calls one after the other; an exception ends the run. *)
Fixpoint run (ms : list mutation) : M Gravatar unit :=
  match ms with
  | [] => ret tt
  | m :: r => mutate m ;; run r
  end.

(** [n] successive reads of [profile], whatever they return. *)
Fixpoint read_profile (n : nat) (w : World) : World :=
  match n with
  | O => w
  | S k => read_profile k (snd (profile w))
  end.

(** A network that answers every request with the same document. *)
Definition net_serving (doc : pyval) : Net :=
  mkNet (fun _ _ => Ok doc) [].

(** A profile as the service shapes it, and the document that carries it. *)
Definition sample_profile : list (string * pyval) :=
  [("displayName", PStr "eric");
   ("urls", PList [PDict [("value", PStr "http://example.com")]]);
   ("emails", PList [PDict [("value", PStr "gridaphobe@gmail.com")]])].

Definition sample_document : pyval :=
  PDict [("entry", PList [PDict sample_profile; PDict []])].

End Vocabulary.

(* ================================================================== *)
(** ** Test vectors for the built-ins *)

(** The test suite of RFC 1321, appendix A.5. *)
Example md5_empty :
  MD5.hexdigest (PyStr.encode "") = "d41d8cd98f00b204e9800998ecf8427e".
Proof. vm_compute. reflexivity. Qed.

Example md5_abc :
  MD5.hexdigest (PyStr.encode "abc") = "900150983cd24fb0d6963f7d28e17f72".
Proof. vm_compute. reflexivity. Qed.

Example md5_message_digest :
  MD5.hexdigest (PyStr.encode "message digest")
  = "f96b697d7cb7938d525a2f31aaf161d0".
Proof. vm_compute. reflexivity. Qed.

Example md5_two_blocks :
  MD5.hexdigest
    (PyStr.encode
       "12345678901234567890123456789012345678901234567890123456789012345678901234567890")
  = "57edf4a22be3c955ac49da2e2107b67a".
Proof. vm_compute. reflexivity. Qed.

Example strip_lower_example :
  PyStr.lower (PyStr.strip "  Foo@Bar.com ") = "foo@bar.com".
Proof. reflexivity. Qed.

Example quote_plus_example :
  Url.quote_plus "http://x.y/a b?c=d&e~" = "http%3A%2F%2Fx.y%2Fa+b%3Fc%3Dd%26e~".
Proof. vm_compute. reflexivity. Qed.

Example urlencode_example :
  Url.urlencode [("s", Url.OInt 80); ("r", Url.OStr "g"); ("d", Url.OStr "mm")]
  = "s=80&r=g&d=mm".
Proof. vm_compute. reflexivity. Qed.

Example int_plus_str : Py.add (PInt 0) (PStr " is not") = Raise TypeError.
Proof. reflexivity. Qed.

(* ================================================================== *)
(** ** Properties of the string operations *)

Section StringFacts.

Import PyStr.

Ltac by_cases_on c :=
  destruct c as [[|] [|] [|] [|] [|] [|] [|] [|]]; vm_compute; reflexivity.

Lemma lower_char_idem (c : ascii) : lower_char (lower_char c) = lower_char c.
Proof. by_cases_on c. Qed.

Lemma is_space_lower_char (c : ascii) : is_space (lower_char c) = is_space c.
Proof. by_cases_on c. Qed.

Lemma lower_idem (s : string) : lower (lower s) = lower s.
Proof.
  induction s as [|c r IH]; simpl.
  - reflexivity.
  - now rewrite lower_char_idem, IH.
Qed.

Lemma lstrip_lower (s : string) : lstrip (lower s) = lower (lstrip s).
Proof.
  induction s as [|c r IH]; simpl.
  - reflexivity.
  - rewrite is_space_lower_char. destruct (is_space c); [exact IH | reflexivity].
Qed.

Lemma rstrip_lower (s : string) : rstrip (lower s) = lower (rstrip s).
Proof.
  induction s as [|c r IH]; simpl.
  - reflexivity.
  - rewrite IH, is_space_lower_char.
    destruct (rstrip r); simpl; [destruct (is_space c)|]; reflexivity.
Qed.

Lemma strip_lower (s : string) : strip (lower s) = lower (strip s).
Proof. unfold strip. now rewrite lstrip_lower, rstrip_lower. Qed.

Lemma lstrip_starts_clean (s : string) : starts_clean (lstrip s).
Proof.
  induction s as [|c r IH]; simpl.
  - exact I.
  - destruct (is_space c) eqn:E; [exact IH | exact E].
Qed.

Lemma lstrip_fixed (s : string) : starts_clean s -> lstrip s = s.
Proof. destruct s as [|c r]; simpl; [reflexivity | now intros ->]. Qed.

Lemma rstrip_starts_clean (s : string) :
  starts_clean s -> starts_clean (rstrip s).
Proof.
  destruct s as [|c r]; simpl; intros H.
  - exact I.
  - destruct (rstrip r); simpl; [rewrite H|]; simpl; assumption.
Qed.

Lemma rstrip_idem (s : string) : rstrip (rstrip s) = rstrip s.
Proof.
  induction s as [|c r IH]; simpl.
  - reflexivity.
  - destruct (rstrip r) as [|a r'] eqn:E.
    + destruct (is_space c) eqn:Ec; simpl; [reflexivity | now rewrite Ec].
    + change (rstrip (String c (String a r')))
        with (match rstrip (String a r') with
              | EmptyString =>
                  if is_space c then EmptyString else String c EmptyString
              | x => String c x
              end).
      now rewrite IH.
Qed.

Lemma strip_idem (s : string) : strip (strip s) = strip s.
Proof.
  unfold strip.
  rewrite (lstrip_fixed (rstrip (lstrip s))).
  - apply rstrip_idem.
  - apply rstrip_starts_clean, lstrip_starts_clean.
Qed.

Lemma lower_strip_fixed (s : string) :
  lower (strip (lower (strip s))) = lower (strip s).
Proof. now rewrite strip_lower, strip_idem, lower_idem. Qed.

End StringFacts.

Lemma email_hash_normal (e : string) :
  email_hash (PyStr.lower (PyStr.strip e)) = email_hash e.
Proof. unfold email_hash. now rewrite lower_strip_fixed. Qed.

(* ================================================================== *)
(** ** The shape of the strings that make a thumbnail URL *)

Section UrlFacts.

Import PyStr.

Lemma append_nil_r (s : string) : s ++ "" = s.
Proof. induction s as [|c r IH]; simpl; [|rewrite IH]; reflexivity. Qed.

Lemma append_assoc (s t u : string) : (s ++ t) ++ u = s ++ (t ++ u).
Proof. induction s as [|c r IH]; simpl; [|rewrite IH]; reflexivity. Qed.

Lemma concat_nosep_cons (x : string) (l : list string) :
  String.concat "" (x :: l) = x ++ String.concat "" l.
Proof. destruct l; simpl; [now rewrite append_nil_r | reflexivity]. Qed.

Lemma concat_nosep_app (l1 l2 : list string) :
  String.concat "" (l1 ++ l2) = String.concat "" l1 ++ String.concat "" l2.
Proof.
  induction l1 as [|x l1 IH].
  - reflexivity.
  - rewrite <- app_comm_cons, !concat_nosep_cons, IH.
    now rewrite append_assoc.
Qed.

Lemma has_app c s t : has c (s ++ t) = has c s || has c t.
Proof.
  induction s as [|a r IH]; simpl; [reflexivity|].
  now rewrite IH, orb_assoc.
Qed.

Lemma all_plain_app s t : all_plain (s ++ t) = all_plain s && all_plain t.
Proof.
  induction s as [|a r IH]; simpl; [reflexivity|].
  now rewrite IH, andb_assoc.
Qed.

Lemma all_plain_concat (l : list string) :
  Forall (fun x => all_plain x = true) l ->
  all_plain (String.concat "" l) = true.
Proof.
  induction 1 as [|x l Hx _ IH]; [reflexivity|].
  now rewrite concat_nosep_cons, all_plain_app, Hx, IH.
Qed.

Lemma plain_not_sep (a c : ascii) :
  is_sep c -> plain a = true -> Ascii.eqb a c = false.
Proof.
  intros [-> | [-> | ->]];
    destruct a as [[|] [|] [|] [|] [|] [|] [|] [|]]; vm_compute;
    congruence.
Qed.

Lemma all_plain_has (c : ascii) (s : string) :
  is_sep c -> all_plain s = true -> has c s = false.
Proof.
  intros Hc. induction s as [|a r IH]; simpl; [reflexivity|].
  intros [Ha Hr]%andb_true_iff.
  now rewrite (plain_not_sep a c Hc Ha), IH.
Qed.

(** Bytes are the codes of characters. *)
Lemma byte_is_code (b : Z) : 0 <= b < 256 -> b = code (chr b).
Proof.
  intros H. unfold code, chr.
  rewrite N_ascii_embedding by lia. lia.
Qed.

Lemma hex_byte_plain (upper : bool) (b : Z) :
  0 <= b < 256 -> all_plain (hex_byte upper b) = true.
Proof.
  intros H. rewrite (byte_is_code b H). generalize (chr b). intros a.
  destruct upper; destruct a as [[|] [|] [|] [|] [|] [|] [|] [|]];
    vm_compute; reflexivity.
Qed.

Lemma le_bytes_range (n : nat) (x : Z) :
  Forall (fun b => 0 <= b < 256) (MD5.le_bytes n x).
Proof.
  revert x. induction n as [|n IH]; intros x; simpl; constructor.
  - change 255 with (Z.ones 8). rewrite Z.land_ones by lia.
    apply Z.mod_pos_bound. reflexivity.
  - apply IH.
Qed.

Lemma digest_range (msg : list Z) :
  Forall (fun b => 0 <= b < 256) (MD5.digest msg).
Proof.
  unfold MD5.digest.
  destruct (MD5.blocks _ MD5.init (MD5.pad msg)) as [a b c d].
  repeat (apply Forall_app; split); apply le_bytes_range.
Qed.

Lemma hexdigest_plain (msg : list Z) :
  all_plain (MD5.hexdigest msg) = true.
Proof.
  unfold MD5.hexdigest. apply all_plain_concat, Forall_map.
  eapply Forall_impl; [|apply digest_range].
  intros b Hb. now apply hex_byte_plain.
Qed.

Lemma quote_plus_cons (c : ascii) (r : string) :
  Url.quote_plus (String c r) = quote_char c ++ Url.quote_plus r.
Proof.
  unfold Url.quote_plus, quote_char. simpl.
  now rewrite map_app, concat_nosep_app.
Qed.

Lemma quote_char_plain (c : ascii) : all_plain (quote_char c) = true.
Proof.
  destruct c as [[|] [|] [|] [|] [|] [|] [|] [|]]; vm_compute; reflexivity.
Qed.

Lemma quote_plus_plain (s : string) : all_plain (Url.quote_plus s) = true.
Proof.
  induction s as [|c r IH]; [reflexivity|].
  now rewrite quote_plus_cons, all_plain_app, quote_char_plain, IH.
Qed.

Lemma quote_char_safe (c : ascii) :
  Url.always_safe (code c) = true -> quote_char c = String c "".
Proof.
  destruct c as [[|] [|] [|] [|] [|] [|] [|] [|]]; vm_compute;
    congruence.
Qed.

Lemma quote_plus_safe (s : string) :
  all_safe s = true -> Url.quote_plus s = s.
Proof.
  induction s as [|c r IH]; [reflexivity|]. simpl.
  intros [Hc Hr]%andb_true_iff.
  now rewrite quote_plus_cons, (quote_char_safe c Hc), IH.
Qed.

Lemma all_safe_plain (s : string) : all_safe s = true -> all_plain s = true.
Proof.
  induction s as [|c r IH]; [reflexivity|]. simpl.
  intros [Hc Hr]%andb_true_iff. unfold plain. now rewrite Hc, IH.
Qed.

Lemma uint_safe (d : Decimal.uint) :
  all_safe (NilEmpty.string_of_uint d) = true.
Proof. induction d; simpl; auto. Qed.

Lemma of_int_safe (z : Z) : all_safe (of_int z) = true.
Proof.
  unfold of_int, NilZero.string_of_int, NilZero.string_of_uint.
  destruct (Z.to_int z) as [d|d]; destruct d; simpl;
    try reflexivity; apply uint_safe.
Qed.

Ltac lower_char_cases c H :=
  destruct c as [[|] [|] [|] [|] [|] [|] [|] [|]]; vm_compute in H;
  try discriminate H; auto.

Lemma lower_char_g c :
  lower_char c = "g"%char -> c = "g"%char \/ c = "G"%char.
Proof. intros H. lower_char_cases c H. Qed.

Lemma lower_char_p c :
  lower_char c = "p"%char -> c = "p"%char \/ c = "P"%char.
Proof. intros H. lower_char_cases c H. Qed.

Lemma lower_char_r c :
  lower_char c = "r"%char -> c = "r"%char \/ c = "R"%char.
Proof. intros H. lower_char_cases c H. Qed.

Lemma lower_char_x c :
  lower_char c = "x"%char -> c = "x"%char \/ c = "X"%char.
Proof. intros H. lower_char_cases c H. Qed.

Lemma valid_rating_cases (r : string) :
  Py.str_in (lower r) RATINGS = true -> In r accepted_ratings.
Proof.
  unfold Py.str_in, RATINGS. simpl existsb.
  rewrite !orb_true_iff, !String.eqb_eq.
  intros [H | [H | [H | [H | H]]]]; try discriminate H.
  - destruct r as [|c [|c2 r]]; simpl in H; try discriminate H.
    injection H as H. destruct (lower_char_g c H) as [-> | ->]; simpl; auto 20.
  - destruct r as [|c [|c2 [|c3 r]]]; simpl in H; try discriminate H.
    injection H as H1 H2.
    destruct (lower_char_p c H1) as [-> | ->];
      destruct (lower_char_g c2 H2) as [-> | ->]; simpl; auto 20.
  - destruct r as [|c [|c2 r]]; simpl in H; try discriminate H.
    injection H as H. destruct (lower_char_r c H) as [-> | ->]; simpl; auto 20.
  - destruct r as [|c [|c2 r]]; simpl in H; try discriminate H.
    injection H as H. destruct (lower_char_x c H) as [-> | ->]; simpl; auto 20.
Qed.

Lemma accepted_rating_safe (r : string) :
  In r accepted_ratings -> all_safe r = true.
Proof.
  unfold accepted_ratings. simpl.
  intros H. repeat (destruct H as [<- | H]; [reflexivity|]). destruct H.
Qed.

(** Reading back what was written. *)
Lemma split_at_app c p q :
  has c p = false -> Query.split_at c (p ++ String c q) = (p, Some q).
Proof.
  induction p as [|a r IH]; simpl.
  - now rewrite Ascii.eqb_refl.
  - intros [Ha Hr]%orb_false_iff. now rewrite Ha, IH.
Qed.

Lemma fields_app c p q :
  has c p = false ->
  Query.fields c (p ++ String c q) = p :: Query.fields c q.
Proof.
  induction p as [|a r IH]; simpl.
  - now rewrite Ascii.eqb_refl.
  - intros [Ha Hr]%orb_false_iff. now rewrite Ha, IH.
Qed.

Lemma fields_one c p : has c p = false -> Query.fields c p = [p].
Proof.
  induction p as [|a r IH]; simpl.
  - reflexivity.
  - intros [Ha Hr]%orb_false_iff. now rewrite Ha, IH.
Qed.

End UrlFacts.

(* ================================================================== *)
(** ** What [_link_to_img] returns and raises *)

Section LinkFacts.

Lemma valid_size_iff (sz : Z) :
  valid_size sz = true <-> MIN_SIZE <= sz <= MAX_SIZE.
Proof.
  unfold valid_size. rewrite andb_true_iff, !Z.leb_le. tauto.
Qed.

Lemma link_invalid_rating (self : Gravatar) :
  valid_rating (rating self) = false ->
  link_to_img self = Raise (InvalidRatingError (rating self)).
Proof. unfold link_to_img, valid_rating. now intros ->. Qed.

Lemma link_invalid_size (self : Gravatar) :
  valid_rating (rating self) = true ->
  valid_size (size self) = false ->
  link_to_img self = Raise (InvalidSizeError (size self)).
Proof. unfold link_to_img, valid_rating, valid_size. now intros -> ->. Qed.

Lemma urlencode_two k1 v1 k2 v2 :
  Url.urlencode [(k1, v1); (k2, v2)]
  = (Url.quote_plus k1 ++ "=" ++ Url.quote_plus (Url.str v1)) ++ "&"
    ++ (Url.quote_plus k2 ++ "=" ++ Url.quote_plus (Url.str v2)).
Proof. reflexivity. Qed.

Lemma urlencode_three k1 v1 k2 v2 k3 v3 :
  Url.urlencode [(k1, v1); (k2, v2); (k3, v3)]
  = (Url.quote_plus k1 ++ "=" ++ Url.quote_plus (Url.str v1)) ++ "&"
    ++ (Url.quote_plus k2 ++ "=" ++ Url.quote_plus (Url.str v2)) ++ "&"
    ++ (Url.quote_plus k3 ++ "=" ++ Url.quote_plus (Url.str v3)).
Proof. reflexivity. Qed.

Lemma link_valid (self : Gravatar) :
  valid_rating (rating self) = true ->
  valid_size (size self) = true ->
  link_to_img self
  = Ok (written_url (hash self) (secure self) (rating self) (size self)
                    (default self)).
Proof.
  intros Hr Hs.
  assert (Hq : Url.quote_plus (rating self) = rating self)
    by now apply quote_plus_safe, accepted_rating_safe, valid_rating_cases.
  unfold link_to_img. fold (valid_rating (rating self)).
  fold (valid_size (size self)). rewrite Hr, Hs. cbn [negb].
  unfold written_url, written_query, origin. do 2 f_equal. f_equal.
  destruct (default self) as [x|].
  - change (Py.dict_set "d" (Url.OStr x)
              [("s", Url.OInt (size self)); ("r", Url.OStr (rating self))])
      with [("s", Url.OInt (size self)); ("r", Url.OStr (rating self));
            ("d", Url.OStr x)].
    rewrite urlencode_three. cbn [Url.str].
    rewrite Hq, (quote_plus_safe _ (of_int_safe (size self))).
    change (Url.quote_plus "s") with "s". change (Url.quote_plus "r") with "r".
    change (Url.quote_plus "d") with "d".
    rewrite !append_assoc. reflexivity.
  - rewrite urlencode_two. cbn [Url.str].
    rewrite Hq, (quote_plus_safe _ (of_int_safe (size self))).
    change (Url.quote_plus "s") with "s". change (Url.quote_plus "r") with "r".
    rewrite !append_assoc, append_nil_r. reflexivity.
Qed.

(** The outcome of the constructor is the outcome of [_link_to_img] on
    the attributes just stored. *)
Lemma init_outcome email sec r sz d :
  __init__ email sec r sz d
  = match link_to_img (mkGravatar (email_hash email) sec r sz d "" PNone) with
    | Ok u => Ok (mkGravatar (email_hash email) sec r sz d u PNone)
    | Raise e => Raise e
    end.
Proof.
  unfold __init__, _link_to_img, bind, get, lift, modify.
  destruct (link_to_img _); reflexivity.
Qed.

(** Every setter stores the value, then regenerates the thumbnail. *)
Lemma mutate_outcome (m : mutation) (g : Gravatar) :
  let g1 := match m with
            | SetSecure v => with_secure g v
            | SetRating v => with_rating g v
            | SetSize v => with_size g v
            | SetDefault v => with_default g v
            end in
  mutate m g = match link_to_img g1 with
               | Ok u => (Ok tt, with_thumb g1 u)
               | Raise e => (Raise e, g1)
               end.
Proof.
  destruct m; simpl;
    unfold set_secure, set_rating, set_size, set_default, _link_to_img,
      bind, get, lift, modify;
    match goal with |- context [link_to_img ?x] => destruct (link_to_img x) end;
    reflexivity.
Qed.

(** Reading the written URL back. *)
Lemma params_written (h : string) sec r sz d :
  all_plain h = true -> all_plain r = true ->
  Query.params (written_url h sec r sz d)
  = ("s", PyStr.of_int sz) :: ("r", r)
    :: match d with
       | Some x => [("d", Url.quote_plus x)]
       | None => []
       end.
Proof.
  intros Hh Hr.
  assert (Hq : is_sep "?"%char) by (left; reflexivity).
  assert (Ha : is_sep "&"%char) by (right; left; reflexivity).
  unfold Query.params, written_url.
  rewrite <- append_assoc.
  change ("?" ++ written_query r sz d) with (String "?" (written_query r sz d)).
  rewrite split_at_app.
  2:{ rewrite has_app, (all_plain_has _ _ Hq Hh).
      destruct sec; reflexivity. }
  cbn [snd]. unfold written_query.
  assert (Hs : has "&" ("s=" ++ PyStr.of_int sz) = false).
  { rewrite has_app.
    now rewrite (all_plain_has _ _ Ha (all_safe_plain _ (of_int_safe sz))). }
  assert (Hr' : has "&" ("r=" ++ r) = false).
  { rewrite has_app. now rewrite (all_plain_has _ _ Ha Hr). }
  rewrite <- append_assoc.
  change ("&r=" ++ r ++ match d with
                        | Some x => "&d=" ++ Url.quote_plus x
                        | None => ""
                        end)
    with (String "&" (("r=" ++ r) ++ match d with
                        | Some x => "&d=" ++ Url.quote_plus x
                        | None => ""
                        end)).
  rewrite (fields_app _ _ _ Hs).
  destruct d as [x|].
  - change ("&d=" ++ Url.quote_plus x)
      with (String "&" ("d=" ++ Url.quote_plus x)).
    rewrite (fields_app _ _ _ Hr'), fields_one.
    + reflexivity.
    + rewrite has_app.
      now rewrite (all_plain_has _ _ Ha (quote_plus_plain x)).
  - rewrite append_nil_r, (fields_one _ _ Hr'). reflexivity.
Qed.

End LinkFacts.

(* ================================================================== *)
(** ** The thumbnail of the documented example *)

(** C1. [Gravatar("gridaphobe@gmail.com")], with every option at its
    default (not secure, rating "g", size 80, no default image), is
    constructed, and its thumbnail is exactly the URL of the docstring. *)
Theorem thumb_of_gridaphobe :
  exists g : Gravatar,
    __init__ "gridaphobe@gmail.com" false "g" 80 None = Ok g
    /\ thumb g
       = "http://www.gravatar.com/avatar/16b87da510d278999c892cdbdd55c1b6?s=80&r=g".
Proof.
  eexists. split.
  - vm_compute. reflexivity.
  - reflexivity.
Qed.

(* ================================================================== *)
(** ** The hash ignores case and surrounding white space *)

(** C8. The hash is a function of the email, and the email trimmed and
    lower-cased has the hash of the email itself; constructing from either
    gives the same outcome with the same hash; "Foo@Bar.com " and
    "foo@bar.com" hash alike. *)
Theorem hash_ignores_case_and_space :
  (forall e : string, email_hash e = email_hash (PyStr.lower (PyStr.strip e)))
  /\ (forall e sec r sz d,
        match __init__ e sec r sz d,
              __init__ (PyStr.lower (PyStr.strip e)) sec r sz d with
        | Ok g, Ok g' => hash g = hash g' /\ hash g = email_hash e
        | Raise x, Raise x' => x = x'
        | _, _ => False
        end)
  /\ email_hash "Foo@Bar.com " = email_hash "foo@bar.com".
Proof.
  split; [|split].
  - intros e. symmetry. apply email_hash_normal.
  - intros e sec r sz d. unfold __init__, _link_to_img, bind, get, lift, modify.
    rewrite email_hash_normal.
    destruct (link_to_img (mkGravatar (email_hash e) sec r sz d "" PNone));
      simpl; auto.
  - rewrite <- (email_hash_normal "Foo@Bar.com "). reflexivity.
Qed.

(* ================================================================== *)
(** ** Valid options: the rating and the size in the thumbnail *)

(** C2, as the code has it. For every rating whose lower-casing is one of
    g, pg, r, x and every size from 1 to 512, construction succeeds; the
    thumbnail is the origin, the hash and the query written out; its [s]
    parameter is the size in decimal and its [r] parameter is the rating
    exactly as it was given, in the case it was given. *)
Theorem thumb_carries_rating_and_size :
  forall (email : string) (sec : bool) (r : string) (sz : Z)
         (d : option string),
    Py.str_in (PyStr.lower r) RATINGS = true ->
    MIN_SIZE <= sz <= MAX_SIZE ->
    exists g : Gravatar,
      __init__ email sec r sz d = Ok g
      /\ thumb g = written_url (email_hash email) sec r sz d
      /\ Query.param "s" (thumb g) = Some (PyStr.of_int sz)
      /\ Query.param "r" (thumb g) = Some r.
Proof.
  intros email sec r sz d Hr Hs.
  rewrite init_outcome, link_valid;
    [| exact Hr | now apply valid_size_iff].
  eexists. split; [reflexivity|]. cbn [thumb _thumb hash _email_hash
    secure _secure rating _rating size _size default _default].
  split; [reflexivity|].
  unfold Query.param. rewrite params_written.
  - split; reflexivity.
  - apply hexdigest_plain.
  - now apply all_safe_plain, accepted_rating_safe, valid_rating_cases.
Qed.

Lemma thumb_carries_rating_and_size_witness :
  exists g : Gravatar,
    __init__ "gridaphobe@gmail.com" true "Pg" 512 (Some "mm") = Ok g
    /\ thumb g
       = written_url (email_hash "gridaphobe@gmail.com") true "Pg" 512
                     (Some "mm")
    /\ Query.param "s" (thumb g) = Some (PyStr.of_int 512)
    /\ Query.param "r" (thumb g) = Some "Pg".
Proof.
  apply (thumb_carries_rating_and_size
           "gridaphobe@gmail.com" true "Pg" 512 (Some "mm")).
  - reflexivity.
  - unfold MIN_SIZE, MAX_SIZE. lia.
Defined.

(** Against C2 as stated.
    The rating "PG" is valid and 80 is a valid size, the instance is
    constructed, and the [r] parameter of its thumbnail is "PG", which is
    not the lower-cased rating "pg". *)
Lemma thumb_rating_keeps_case :
  Py.str_in (PyStr.lower "PG") RATINGS = true
  /\ MIN_SIZE <= 80 <= MAX_SIZE
  /\ exists g : Gravatar,
       __init__ "gridaphobe@gmail.com" false "PG" 80 None = Ok g
       /\ thumb g
          = "http://www.gravatar.com/avatar/16b87da510d278999c892cdbdd55c1b6?s=80&r=PG"
       /\ Query.param "r" (thumb g) = Some "PG"
       /\ Query.param "r" (thumb g) <> Some (PyStr.lower "PG").
Proof.
  split; [reflexivity|]. split; [unfold MIN_SIZE, MAX_SIZE; lia|].
  eexists. split; [vm_compute; reflexivity|].
  split; [reflexivity|]. split; [reflexivity|]. discriminate.
Qed.

(* ================================================================== *)
(** ** Invalid options: the typed errors *)

(** C3, as the code has it. An invalid rating makes the constructor and
    the rating setter raise [InvalidRatingError] carrying that rating,
    whatever the other options are. An out-of-range size makes the
    constructor and the size setter raise [InvalidSizeError] carrying that
    size when the rating in force is valid: the rating is validated first.
    A setter that raises has already stored the value. *)
Theorem invalid_options_raise :
  (forall email sec r sz d,
      Py.str_in (PyStr.lower r) RATINGS = false ->
      __init__ email sec r sz d = Raise (InvalidRatingError r))
  /\ (forall g r,
      Py.str_in (PyStr.lower r) RATINGS = false ->
      set_rating r g = (Raise (InvalidRatingError r), with_rating g r))
  /\ (forall email sec r sz d,
      Py.str_in (PyStr.lower r) RATINGS = true ->
      ~ (MIN_SIZE <= sz <= MAX_SIZE) ->
      __init__ email sec r sz d = Raise (InvalidSizeError sz))
  /\ (forall g sz,
      Py.str_in (PyStr.lower (rating g)) RATINGS = true ->
      ~ (MIN_SIZE <= sz <= MAX_SIZE) ->
      set_size sz g = (Raise (InvalidSizeError sz), with_size g sz)).
Proof.
  assert (Hsz : forall sz, ~ (MIN_SIZE <= sz <= MAX_SIZE) ->
                           valid_size sz = false).
  { intros sz H. destruct (valid_size sz) eqn:E; [|reflexivity].
    now apply valid_size_iff in E. }
  repeat split.
  - intros email sec r sz d Hr.
    now rewrite init_outcome, link_invalid_rating.
  - intros g r Hr. change (set_rating r) with (mutate (SetRating r)).
    now rewrite mutate_outcome, link_invalid_rating.
  - intros email sec r sz d Hr Hs.
    rewrite init_outcome, link_invalid_size; auto.
  - intros g sz Hr Hs. change (set_size sz) with (mutate (SetSize sz)).
    rewrite mutate_outcome, link_invalid_size; auto.
Qed.

Lemma invalid_options_raise_witness :
  __init__ "gridaphobe@gmail.com" false "nc17" 80 None
    = Raise (InvalidRatingError "nc17")
  /\ __init__ "gridaphobe@gmail.com" false "g" 513 None
    = Raise (InvalidSizeError 513).
Proof.
  destruct invalid_options_raise as (Hr & _ & Hs & _). split.
  - apply Hr. reflexivity.
  - apply Hs; [reflexivity | unfold MIN_SIZE, MAX_SIZE; lia].
Defined.

(** Against C3 as stated.
    The size 0 is out of range, and constructing with it and the invalid
    rating "zz" raises the rating error, not the size error. *)
Lemma invalid_size_behind_invalid_rating :
  ~ (MIN_SIZE <= 0 <= MAX_SIZE)
  /\ __init__ "gridaphobe@gmail.com" false "zz" 0 None
     = Raise (InvalidRatingError "zz")
  /\ __init__ "gridaphobe@gmail.com" false "zz" 0 None
     <> Raise (InvalidSizeError 0).
Proof.
  split; [unfold MIN_SIZE, MAX_SIZE; lia|].
  assert (H : __init__ "gridaphobe@gmail.com" false "zz" 0 None
              = Raise (InvalidRatingError "zz")) by (vm_compute; reflexivity).
  split; [exact H|]. rewrite H. discriminate.
Qed.

(* ================================================================== *)
(** ** The thumbnail after a mutation *)

(** C4. After any setter (secure, rating, size, default) that returns
    without raising, the stored thumbnail is the URL [_link_to_img] builds
    from the options as they now are, and the option set holds the value
    given. *)
Theorem thumb_fresh_after_mutation :
  forall (m : mutation) (g g' : Gravatar),
    mutate m g = (Ok tt, g') ->
    link_to_img g' = Ok (thumb g')
    /\ match m with
       | SetSecure v => secure g' = v
       | SetRating v => rating g' = v
       | SetSize v => size g' = v
       | SetDefault v => default g' = v
       end.
Proof.
  intros m g g' H. rewrite mutate_outcome in H. cbv zeta in H.
  destruct m as [v|v|v|v];
    match type of H with
    | context [link_to_img ?x] => destruct (link_to_img x) as [u|e] eqn:E
    end;
    try discriminate H; injection H as <-; (split; [|reflexivity]);
    (transitivity (Ok (A:=string) u); [|reflexivity]);
    rewrite <- E; destruct g; reflexivity.
Qed.

Lemma thumb_fresh_after_mutation_witness :
  let g := mkGravatar "16b87da510d278999c892cdbdd55c1b6" false "g" 80 None
             "http://www.gravatar.com/avatar/16b87da510d278999c892cdbdd55c1b6?s=80&r=g"
             PNone in
  let g' := mkGravatar "16b87da510d278999c892cdbdd55c1b6" false "g" 200 None
             "http://www.gravatar.com/avatar/16b87da510d278999c892cdbdd55c1b6?s=200&r=g"
             PNone in
  mutate (SetSize 200) g = (Ok tt, g')
  /\ link_to_img g' = Ok (thumb g') /\ size g' = 200.
Proof.
  intros g g'.
  assert (H : mutate (SetSize 200) g = (Ok tt, g')) by (vm_compute; reflexivity).
  split; [exact H|].
  exact (thumb_fresh_after_mutation (SetSize 200) g g' H).
Defined.

(* ================================================================== *)
(** ** The message of the size error *)

(** C9, evaluated. An out-of-range size makes the constructor raise
    [InvalidSizeError] carrying the size; its [__str__] adds an integer
    and a string, which raises [TypeError] for every integer, where the
    [__str__] of the rating error returns its message. *)
Theorem size_error_has_no_message :
  __init__ "gridaphobe@gmail.com" false "g" 0 None
    = Raise (InvalidSizeError 0)
  /\ (forall value : Z, InvalidSizeError_str value = Raise TypeError)
  /\ (forall value : string,
        InvalidRatingError_str value
        = Ok (PStr (value ++ " is not a valid gravatar rating"))).
Proof.
  split; [vm_compute; reflexivity|]. split; intros value; reflexivity.
Qed.

(* ================================================================== *)
(** ** The profile and its views *)

Section ProfileFacts.

Lemma get_profile_outcome (g : Gravatar) (net : Net) :
  _get_profile (g, net)
  = (Ok tt,
     (with_profile g
        match first_entry (reply net (List.length (calls net)) (profile_url g))
        with
        | Ok v => v
        | Raise _ => PDict []
        end,
      mkNet (reply net) (calls net ++ [profile_url g]))).
Proof.
  unfold _get_profile, bind, self_, try_except, json_load_urlopen, lift,
    store_profile, modify, first_entry, rbind, any_exception.
  cbn [fst snd]. fold (profile_url g).
  destruct (reply net (List.length (calls net)) (profile_url g)) as [doc|e];
    [|reflexivity].
  destruct (Py.getitem doc (PStr "entry")) as [entry|e]; [|reflexivity].
  destruct (Py.getitem entry (PInt 0)) as [v|e]; reflexivity.
Qed.

Lemma profile_cached (g : Gravatar) (net : Net) :
  is_None (_profile g) = false ->
  profile (g, net) = (Ok (_profile g), (g, net)).
Proof.
  intros H. unfold profile, bind, self_, ret. cbn [fst]. now rewrite H.
Qed.

Lemma profile_unfetched (g : Gravatar) (net : Net) :
  _profile g = PNone ->
  profile (g, net)
  = (Ok match first_entry (reply net (List.length (calls net)) (profile_url g))
        with
        | Ok v => v
        | Raise _ => PDict []
        end,
     (with_profile g
        match first_entry (reply net (List.length (calls net)) (profile_url g))
        with
        | Ok v => v
        | Raise _ => PDict []
        end,
      mkNet (reply net) (calls net ++ [profile_url g]))).
Proof.
  intros H. unfold profile, bind, self_, ret. cbn [fst]. rewrite H.
  cbn [is_None]. now rewrite get_profile_outcome.
Qed.

(** A view of a cached mapping. *)
Lemma view_cached (key : string) (g : Gravatar) (net : Net) d :
  _profile g = PDict d ->
  try_except (p <- profile ;; lift (Py.getitem p (PStr key))) is_KeyError
             (ret (PList [])) (g, net)
  = (Ok (item_or_empty key d), (g, net)).
Proof.
  intros H. unfold try_except, bind, lift, ret, item_or_empty.
  rewrite profile_cached by now rewrite H.
  rewrite H. cbn [Py.getitem].
  destruct (Py.dict_get key d); reflexivity.
Qed.

Lemma verified_only_filter (l : list pyval) :
  Forall (fun a => verified_field a <> None) l ->
  verified_only l = Ok (filter verified_is_true l).
Proof.
  induction 1 as [|a l Ha _ IH]; [reflexivity|].
  cbn [verified_only filter]. rewrite IH. unfold verified_is_true.
  destruct a as [| | | | |e]; try (now elim Ha).
  cbn [verified_field Py.getitem] in *.
  destruct (Py.dict_get "verified" e) as [v|]; [|now elim Ha].
  cbn [rbind]. destruct v; reflexivity.
Qed.

Lemma view_missing (key : string) (g : Gravatar) (net : Net) d :
  _profile g = PDict d ->
  Py.dict_get key d = None ->
  try_except (p <- profile ;; lift (Py.getitem p (PStr key))) is_KeyError
             (ret (PList [])) (g, net)
  = (Ok (PList []), (g, net)).
Proof.
  intros H Hk. rewrite (view_cached key g net d H).
  unfold item_or_empty. now rewrite Hk.
Qed.

Lemma verified_accounts_missing (g : Gravatar) (net : Net) d :
  _profile g = PDict d ->
  Py.dict_get "accounts" d = None ->
  verified_accounts (g, net) = (Ok (PList []), (g, net)).
Proof.
  intros H Hk. unfold verified_accounts, bind.
  change (accounts (g, net)) with
    (try_except (p <- profile ;; lift (Py.getitem p (PStr "accounts")))
       is_KeyError (ret (PList [])) (g, net)).
  now rewrite (view_missing _ g net d H Hk).
Qed.

Lemma gridaphobe_constructed :
  __init__ "gridaphobe@gmail.com" false "g" 80 None = Ok gridaphobe.
Proof. vm_compute. reflexivity. Qed.

End ProfileFacts.

(** C7. For an instance whose cached profile is a mapping, each view whose
    key is absent from the mapping returns the empty list: it does not
    raise, and it leaves the instance and the network as they were. The key
    of [verified_accounts] and of [ims] is "accounts". *)
Theorem views_tolerate_missing_keys :
  forall (g : Gravatar) (net : Net) (d : list (string * pyval)),
    _profile g = PDict d ->
    (Py.dict_get "urls" d = None ->
       urls (g, net) = (Ok (PList []), (g, net)))
    /\ (Py.dict_get "accounts" d = None ->
       accounts (g, net) = (Ok (PList []), (g, net))
       /\ verified_accounts (g, net) = (Ok (PList []), (g, net))
       /\ ims (g, net) = (Ok (PList []), (g, net)))
    /\ (Py.dict_get "photos" d = None ->
       photos (g, net) = (Ok (PList []), (g, net)))
    /\ (Py.dict_get "emails" d = None ->
       emails (g, net) = (Ok (PList []), (g, net))).
Proof.
  intros g net d H.
  split; [exact (view_missing "urls" g net d H) |].
  split; [| split; [exact (view_missing "photos" g net d H)
                   | exact (view_missing "emails" g net d H)]].
  intros Hk.
  split; [exact (view_missing "accounts" g net d H Hk) |].
  split; [exact (verified_accounts_missing g net d H Hk)
         | exact (view_missing "accounts" g net d H Hk)].
Qed.

Lemma views_tolerate_missing_keys_witness :
  let g := with_profile gridaphobe (PDict [("displayName", PStr "eric")]) in
  urls (g, net_down) = (Ok (PList []), (g, net_down))
  /\ verified_accounts (g, net_down) = (Ok (PList []), (g, net_down))
  /\ emails (g, net_down) = (Ok (PList []), (g, net_down)).
Proof.
  intros g.
  destruct (views_tolerate_missing_keys g net_down
              [("displayName", PStr "eric")] eq_refl)
    as (Hu & Ha & _ & He).
  split; [apply Hu; reflexivity|].
  split; [apply Ha; reflexivity | apply He; reflexivity].
Defined.

(** C10. [ims] is [accounts]: on every instance and network the two
    behave alike, and for a cached mapping both return the value bound to
    "accounts" (the empty list when there is none), whatever is bound to
    any other key. *)
Theorem ims_is_accounts :
  (forall w : World, ims w = accounts w)
  /\ (forall (g : Gravatar) (net : Net) (d : list (string * pyval)),
        _profile g = PDict d ->
        ims (g, net) = (Ok (item_or_empty "accounts" d), (g, net))
        /\ accounts (g, net) = (Ok (item_or_empty "accounts" d), (g, net))).
Proof.
  split; [reflexivity|].
  intros g net d H. split; exact (view_cached "accounts" g net d H).
Qed.

Lemma ims_is_accounts_witness :
  let d := [("ims", PList [PDict [("type", PStr "aim")]]);
            ("accounts", PList [PDict [("shortname", PStr "twitter")]])] in
  let g := with_profile gridaphobe (PDict d) in
  ims (g, net_down)
  = (Ok (PList [PDict [("shortname", PStr "twitter")]]), (g, net_down))
  /\ accounts (g, net_down)
  = (Ok (PList [PDict [("shortname", PStr "twitter")]]), (g, net_down)).
Proof.
  intros d g. destruct ims_is_accounts as [_ H].
  exact (H g net_down d eq_refl).
Defined.

(* ================================================================== *)
(** ** The verified accounts *)

(** C6, as the code has it. For a cached mapping whose "accounts" value is
    a list of mappings that each have a "verified" field,
    [verified_accounts] returns, in order, exactly the entries whose field
    is the string "true"; an entry whose field is the boolean true or the
    string "false" is not among them. *)
Theorem verified_accounts_filters :
  forall (g : Gravatar) (net : Net) (d : list (string * pyval))
         (l : list pyval),
    _profile g = PDict d ->
    Py.dict_get "accounts" d = Some (PList l) ->
    Forall (fun a => verified_field a <> None) l ->
    verified_accounts (g, net)
    = (Ok (PList (filter verified_is_true l)), (g, net))
    /\ (forall a, In a (filter verified_is_true l)
                  <-> In a l /\ verified_field a = Some (PStr "true"))
    /\ (forall a, verified_field a = Some (PBool true)
                  \/ verified_field a = Some (PStr "false") ->
                  ~ In a (filter verified_is_true l)).
Proof.
  intros g net d l H Hd Hl.
  assert (T : forall a, verified_is_true a = true
                        <-> verified_field a = Some (PStr "true")).
  { intros a. unfold verified_is_true.
    destruct (verified_field a) as [[| | |t| |]|]; split; try discriminate.
    - intros E. apply String.eqb_eq in E. now subst.
    - intros [= ->]. reflexivity. }
  split; [|split].
  - unfold verified_accounts, bind.
    change (accounts (g, net)) with
      (try_except (p <- profile ;; lift (Py.getitem p (PStr "accounts")))
         is_KeyError (ret (PList [])) (g, net)).
    rewrite (view_cached "accounts" g net d H). unfold item_or_empty.
    rewrite Hd. unfold lift, ret. cbn [Py.iter].
    now rewrite (verified_only_filter l Hl).
  - intros a. rewrite filter_In, T. reflexivity.
  - intros a Ha [_ E]%filter_In. apply T in E. rewrite E in Ha.
    destruct Ha; discriminate.
Qed.

Lemma verified_accounts_filters_witness :
  let yes := PDict [("shortname", PStr "twitter"); ("verified", PStr "true")] in
  let no := PDict [("shortname", PStr "blog"); ("verified", PStr "false")] in
  let odd := PDict [("shortname", PStr "vimeo"); ("verified", PBool true)] in
  let g := with_profile gridaphobe (PDict [("accounts", PList [no; yes; odd])]) in
  verified_accounts (g, net_down) = (Ok (PList [yes]), (g, net_down)).
Proof.
  intros yes no odd g.
  refine (proj1 (verified_accounts_filters g net_down
                   [("accounts", PList [no; yes; odd])] [no; yes; odd]
                   eq_refl eq_refl _)).
  repeat constructor; discriminate.
Defined.

(** Against C6 as stated.
    The cached profile is a mapping and its one account is a mapping, but
    the account has no "verified" field: the view raises [KeyError]
    instead of returning the entries whose field is "true" (none). *)
Lemma verified_accounts_missing_field :
  let l := [PDict [("shortname", PStr "twitter")]] in
  let g := with_profile gridaphobe (PDict [("accounts", PList l)]) in
  verified_accounts (g, net_down)
  = (Raise (KeyError (PStr "verified")), (g, net_down))
  /\ fst (verified_accounts (g, net_down))
     <> Ok (PList (filter verified_is_true l)).
Proof.
  intros l g.
  assert (H : verified_accounts (g, net_down)
              = (Raise (KeyError (PStr "verified")), (g, net_down)))
    by reflexivity.
  split; [exact H|]. rewrite H. discriminate.
Qed.

(* ================================================================== *)
(** ** Fetching the profile *)

(** C5, evaluated. A fetch that fails in any way (the request, the parse
    or either subscript raises) stores the empty mapping and returns it
    without raising, and the accesses that follow return it, and the views
    the empty list, without another request. A stored profile that is not
    [None] is returned without a request. But a document whose first entry
    is null is stored as [None], the value that means not fetched: the
    second access of [profile] requests the document again. *)
Theorem profile_fetch_memo :
  (forall (g : Gravatar) (net : Net) (e : exn),
      _profile g = PNone ->
      first_entry (reply net (List.length (calls net)) (profile_url g))
        = Raise e ->
      let w := (with_profile g (PDict []),
                mkNet (reply net) (calls net ++ [profile_url g])) in
      profile (g, net) = (Ok (PDict []), w)
      /\ profile w = (Ok (PDict []), w)
      /\ urls w = (Ok (PList []), w)
      /\ accounts w = (Ok (PList []), w)
      /\ verified_accounts w = (Ok (PList []), w)
      /\ ims w = (Ok (PList []), w)
      /\ photos w = (Ok (PList []), w)
      /\ emails w = (Ok (PList []), w))
  /\ (forall (g : Gravatar) (net : Net),
      _profile g <> PNone ->
      profile (g, net) = (Ok (_profile g), (g, net)))
  /\ (let first := profile (gridaphobe, net_null_entry) in
      let second := profile (snd first) in
      fst first = Ok PNone
      /\ calls (snd (snd first)) = [profile_url gridaphobe]
      /\ fst second = Ok PNone
      /\ calls (snd (snd second))
         = [profile_url gridaphobe; profile_url gridaphobe]).
Proof.
  split; [|split].
  - intros g net e H Hf w.
    assert (Hw : _profile (fst w) = PDict []) by (destruct g; reflexivity).
    split; [now rewrite profile_unfetched, Hf|].
    split; [exact (profile_cached (fst w) (snd w) eq_refl)|].
    split; [exact (view_missing "urls" _ _ [] Hw eq_refl)|].
    split; [exact (view_missing "accounts" _ _ [] Hw eq_refl)|].
    split; [exact (verified_accounts_missing _ _ [] Hw eq_refl)|].
    split; [exact (view_missing "accounts" _ _ [] Hw eq_refl)|].
    split; [exact (view_missing "photos" _ _ [] Hw eq_refl)|].
    exact (view_missing "emails" _ _ [] Hw eq_refl).
  - intros g net H. apply profile_cached.
    destruct (_profile g); try reflexivity. now elim H.
  - repeat split.
Qed.

Lemma profile_fetch_memo_witness :
  let w := (with_profile gridaphobe (PDict []),
            mkNet (reply net_down) [profile_url gridaphobe]) in
  profile (gridaphobe, net_down) = (Ok (PDict []), w)
  /\ profile w = (Ok (PDict []), w)
  /\ emails w = (Ok (PList []), w).
Proof.
  intros w.
  destruct (proj1 profile_fetch_memo gridaphobe net_down
              (FetchError "unreachable") eq_refl eq_refl)
    as (H1 & H2 & _ & _ & _ & _ & _ & H3).
  split; [exact H1|]. split; [exact H2 | exact H3].
Defined.

(* ================================================================== *)
(** ** Further properties: construction and the options *)

Section OptionFacts.

Lemma link_with_thumb (g : Gravatar) (u : string) :
  link_to_img (with_thumb g u) = link_to_img g.
Proof. reflexivity. Qed.

Lemma link_ok_inv (g : Gravatar) (u : string) :
  link_to_img g = Ok u ->
  valid_rating (rating g) = true /\ valid_size (size g) = true
  /\ u = written_url (hash g) (secure g) (rating g) (size g) (default g).
Proof.
  intros H.
  destruct (valid_rating (rating g)) eqn:Hr.
  - destruct (valid_size (size g)) eqn:Hs.
    + rewrite (link_valid g Hr Hs) in H. injection H as <-. auto.
    + rewrite (link_invalid_size g Hr Hs) in H. discriminate.
  - rewrite (link_invalid_rating g Hr) in H. discriminate.
Qed.


Lemma str_length_app (s t : string) :
  String.length (s ++ t) = (String.length s + String.length t)%nat.
Proof. induction s as [|c r IH]; simpl; [|rewrite IH]; reflexivity. Qed.

Lemma le_bytes_length (n : nat) (x : Z) : List.length (MD5.le_bytes n x) = n.
Proof.
  revert x. induction n as [|n IH]; intros x; simpl; [|rewrite IH]; reflexivity.
Qed.

Lemma digest_length (msg : list Z) : List.length (MD5.digest msg) = 16%nat.
Proof.
  unfold MD5.digest.
  destruct (MD5.blocks _ MD5.init (MD5.pad msg)) as [a b c d].
  now rewrite !length_app, !le_bytes_length.
Qed.

Lemma hex_bytes_length (upper : bool) (l : list Z) :
  String.length (String.concat "" (map (PyStr.hex_byte upper) l))
  = (2 * List.length l)%nat.
Proof.
  induction l as [|b l IH]; [reflexivity|].
  cbn [map]. rewrite concat_nosep_cons, str_length_app, IH.
  cbn [PyStr.hex_byte String.length List.length]. lia.
Qed.

Lemma all_hex_lower_app (s t : string) :
  all_hex_lower (s ++ t) = all_hex_lower s && all_hex_lower t.
Proof.
  induction s as [|a r IH]; simpl; [reflexivity|].
  now rewrite IH, andb_assoc.
Qed.

Lemma hex_byte_lower (b : Z) :
  0 <= b < 256 -> all_hex_lower (PyStr.hex_byte false b) = true.
Proof.
  intros H. rewrite (byte_is_code b H). generalize (PyStr.chr b). intros a.
  destruct a as [[|] [|] [|] [|] [|] [|] [|] [|]]; vm_compute; reflexivity.
Qed.

Lemma hexdigest_lower (msg : list Z) :
  all_hex_lower (MD5.hexdigest msg) = true.
Proof.
  unfold MD5.hexdigest.
  pose proof (digest_range msg) as H.
  induction H as [|b l Hb _ IH]; [reflexivity|].
  cbn [map]. now rewrite concat_nosep_cons, all_hex_lower_app, hex_byte_lower, IH.
Qed.

End OptionFacts.

(** X1. The hash of every email is thirty-two characters long and each
    of them is a digit or a letter from a to f in lower case. *)
Theorem hash_is_32_lower_hex :
  forall email : string,
    String.length (email_hash email) = 32%nat
    /\ all_hex_lower (email_hash email) = true.
Proof.
  intros email. unfold email_hash. split.
  - unfold MD5.hexdigest. now rewrite hex_bytes_length, digest_length.
  - apply hexdigest_lower.
Qed.



(** X3. The query of the thumbnail of a constructed instance reads back
    as exactly the size, the rating and, when one is set, the encoded
    default image, in that order: whatever characters the default image
    holds (ampersands, equals signs, question marks, spaces), it adds no
    parameter and changes none. *)
Theorem thumb_query_is_exact :
  forall (email : string) (sec : bool) (r : string) (sz : Z)
         (d : option string) (g : Gravatar),
    __init__ email sec r sz d = Ok g ->
    Query.params (thumb g)
    = ("s", PyStr.of_int sz) :: ("r", r)
      :: match d with
         | Some x => [("d", Url.quote_plus x)]
         | None => []
         end.
Proof.
  intros email sec r sz d g H. rewrite init_outcome in H.
  destruct (link_to_img _) as [u|e] eqn:E; [|discriminate].
  injection H as <-. apply link_ok_inv in E. destruct E as (Hr & _ & ->).
  cbn [thumb _thumb hash _email_hash secure _secure rating _rating size _size
       default _default] in *.
  apply params_written; [apply hexdigest_plain|].
  now apply all_safe_plain, accepted_rating_safe, valid_rating_cases.
Qed.

Lemma thumb_query_is_exact_witness :
  exists g,
    __init__ "gridaphobe@gmail.com" false "g" 80
             (Some "http://x.y/a b?s=1&r=x") = Ok g
    /\ Query.params (thumb g)
       = [("s", "80"); ("r", "g");
          ("d", "http%3A%2F%2Fx.y%2Fa+b%3Fs%3D1%26r%3Dx")].
Proof.
  eexists. split; [vm_compute; reflexivity|].
  exact (thumb_query_is_exact "gridaphobe@gmail.com" false "g" 80
           (Some "http://x.y/a b?s=1&r=x") _ eq_refl).
Defined.

(* ================================================================== *)
(** ** Further properties: the setters *)

(** X4. A setter that raises has already stored its value and has left
    the thumbnail as it was. After an invalid rating has been assigned,
    the instance keeps it: setting secure, the size or the default image,
    to any value, raises the rating error for the stored rating. After an
    out-of-range size has been assigned to an instance whose rating is
    valid, setting secure or the default image raises the size error. *)
Theorem failed_setter_keeps_value :
  (forall (g : Gravatar) (r : string),
      Py.str_in (PyStr.lower r) RATINGS = false ->
      let g1 := snd (set_rating r g) in
      rating g1 = r /\ thumb g1 = thumb g
      /\ (forall v, fst (set_secure v g1) = Raise (InvalidRatingError r))
      /\ (forall v, fst (set_size v g1) = Raise (InvalidRatingError r))
      /\ (forall v, fst (set_default v g1) = Raise (InvalidRatingError r)))
  /\ (forall (g : Gravatar) (sz : Z),
      Py.str_in (PyStr.lower (rating g)) RATINGS = true ->
      ~ (MIN_SIZE <= sz <= MAX_SIZE) ->
      let g1 := snd (set_size sz g) in
      size g1 = sz /\ thumb g1 = thumb g
      /\ (forall v, fst (set_secure v g1) = Raise (InvalidSizeError sz))
      /\ (forall v, fst (set_default v g1) = Raise (InvalidSizeError sz))).
Proof.
  split.
  - intros g r Hr g1.
    assert (E : g1 = with_rating g r).
    { unfold g1. change (set_rating r) with (mutate (SetRating r)).
      now rewrite mutate_outcome, link_invalid_rating. }
    rewrite E. split; [reflexivity|]. split; [reflexivity|].
    split; [|split]; intros v.
    + change (set_secure v) with (mutate (SetSecure v)).
      now rewrite mutate_outcome, link_invalid_rating.
    + change (set_size v) with (mutate (SetSize v)).
      now rewrite mutate_outcome, link_invalid_rating.
    + change (set_default v) with (mutate (SetDefault v)).
      now rewrite mutate_outcome, link_invalid_rating.
  - intros g sz Hr Hs g1.
    assert (Hv : valid_size sz = false).
    { destruct (valid_size sz) eqn:E; [|reflexivity].
      now apply valid_size_iff in E. }
    assert (E : g1 = with_size g sz).
    { unfold g1. change (set_size sz) with (mutate (SetSize sz)).
      now rewrite mutate_outcome, link_invalid_size. }
    rewrite E. split; [reflexivity|]. split; [reflexivity|].
    split; intros v.
    + change (set_secure v) with (mutate (SetSecure v)).
      now rewrite mutate_outcome, link_invalid_size.
    + change (set_default v) with (mutate (SetDefault v)).
      now rewrite mutate_outcome, link_invalid_size.
Qed.

Lemma failed_setter_keeps_value_witness :
  let g1 := snd (set_rating "nc17" gridaphobe) in
  rating g1 = "nc17" /\ thumb g1 = thumb gridaphobe
  /\ fst (set_size 100 g1) = Raise (InvalidRatingError "nc17").
Proof.
  intros g1.
  destruct (proj1 failed_setter_keeps_value gridaphobe "nc17" eq_refl)
    as (H1 & H2 & _ & H3 & _).
  split; [exact H1|]. split; [exact H2 | exact (H3 100)].
Defined.

(** X5. No setter, whether it returns or raises, changes the hash, the
    stored profile or any option other than its own; and when it raises it
    leaves the thumbnail too. *)
Theorem setters_touch_only_their_option :
  forall (m : mutation) (g : Gravatar),
    let g' := snd (mutate m g) in
    hash g' = hash g /\ _profile g' = _profile g
    /\ match m with
       | SetSecure v =>
           secure g' = v /\ rating g' = rating g /\ size g' = size g
           /\ default g' = default g
       | SetRating v =>
           secure g' = secure g /\ rating g' = v /\ size g' = size g
           /\ default g' = default g
       | SetSize v =>
           secure g' = secure g /\ rating g' = rating g /\ size g' = v
           /\ default g' = default g
       | SetDefault v =>
           secure g' = secure g /\ rating g' = rating g /\ size g' = size g
           /\ default g' = v
       end
    /\ (forall e, fst (mutate m g) = Raise e -> thumb g' = thumb g).
Proof.
  intros m g. cbv zeta. rewrite mutate_outcome. cbv zeta.
  destruct m as [v|v|v|v];
    match goal with
    | |- context [link_to_img ?x] => destruct (link_to_img x) as [u|e']
    end; cbn [fst snd]; repeat split; intros; discriminate.
Qed.

Lemma setters_touch_only_their_option_witness :
  let g' := snd (mutate (SetSize 0) gridaphobe) in
  hash g' = hash gridaphobe /\ size g' = 0 /\ rating g' = "g"
  /\ thumb g' = thumb gridaphobe.
Proof.
  intros g'.
  destruct (setters_touch_only_their_option (SetSize 0) gridaphobe)
    as (H1 & _ & (_ & H2 & H3 & _) & H4).
  split; [exact H1|]. split; [exact H3|]. split; [exact H2|].
  exact (H4 (InvalidSizeError 0) eq_refl).
Defined.

(** X6. On an instance whose rating and size are valid, setting secure
    always succeeds, and the two thumbnails it can produce differ in the
    origin only: the HTTPS origin when secure is true, the HTTP origin
    when it is false, followed by the same hash and query. *)
Theorem secure_changes_origin_only :
  forall g : Gravatar,
    Py.str_in (PyStr.lower (rating g)) RATINGS = true ->
    MIN_SIZE <= size g <= MAX_SIZE ->
    let rest := hash g ++ "?" ++ written_query (rating g) (size g) (default g) in
    (exists g', set_secure true g = (Ok tt, g')
                /\ thumb g' = "https://secure.gravatar.com/avatar/" ++ rest)
    /\ (exists g', set_secure false g = (Ok tt, g')
                /\ thumb g' = "http://www.gravatar.com/avatar/" ++ rest).
Proof.
  intros g Hr Hs rest. apply valid_size_iff in Hs.
  split; eexists;
    (split;
     [ match goal with
       | |- set_secure ?v g = _ => change (set_secure v) with (mutate (SetSecure v))
       end;
       rewrite mutate_outcome; cbv zeta; rewrite link_valid by assumption;
       reflexivity
     | reflexivity ]).
Qed.

Lemma secure_changes_origin_only_witness :
  exists g', set_secure true gridaphobe = (Ok tt, g')
    /\ thumb g'
       = "https://secure.gravatar.com/avatar/16b87da510d278999c892cdbdd55c1b6?s=80&r=g".
Proof.
  refine (proj1 (secure_changes_origin_only gridaphobe eq_refl _)).
  unfold MIN_SIZE, MAX_SIZE. cbn. lia.
Defined.



(** X8. Every instance reached from the constructor by setter calls that
    all returned has a valid rating, a size between 1 and 512, the hash of
    the email it was constructed from, and a thumbnail that is the URL
    written out from those options. *)
Theorem reachable_instances_are_consistent :
  forall (email : string) (sec : bool) (r : string) (sz : Z)
         (d : option string) (g : Gravatar) (ms : list mutation)
         (g' : Gravatar),
    __init__ email sec r sz d = Ok g ->
    run ms g = (Ok tt, g') ->
    Py.str_in (PyStr.lower (rating g')) RATINGS = true
    /\ MIN_SIZE <= size g' <= MAX_SIZE
    /\ hash g' = email_hash email
    /\ thumb g'
       = written_url (hash g') (secure g') (rating g') (size g') (default g').
Proof.
  intros email sec r sz d g ms g' H Hrun.
  assert (I : link_to_img g = Ok (thumb g) /\ hash g = email_hash email).
  { rewrite init_outcome in H.
    destruct (link_to_img _) as [u|e] eqn:E; [|discriminate].
    injection H as <-. split; [exact E | reflexivity]. }
  clear H. revert g I Hrun.
  induction ms as [|m ms IH]; intros g [Hc Hh] Hrun.
  - injection Hrun as <-. apply link_ok_inv in Hc.
    destruct Hc as (Hr & Hs & Hu). apply valid_size_iff in Hs. auto.
  - cbn [run] in Hrun. unfold bind in Hrun.
    rewrite mutate_outcome in Hrun. cbv zeta in Hrun.
    match type of Hrun with
    | context [link_to_img ?x] => destruct (link_to_img x) as [u|e] eqn:E
    end; [|discriminate].
    apply IH in Hrun; [exact Hrun|]. split.
    + exact E.
    + rewrite <- Hh. destruct m; reflexivity.
Qed.

Lemma reachable_instances_are_consistent_witness :
  exists g',
    run [SetSize 200; SetRating "PG"; SetSecure true] gridaphobe = (Ok tt, g')
    /\ thumb g'
       = written_url (hash g') (secure g') (rating g') (size g') (default g').
Proof.
  eexists. split; [vm_compute; reflexivity|].
  exact (proj2 (proj2 (proj2
           (reachable_instances_are_consistent "gridaphobe@gmail.com" false
              "g" 80 None gridaphobe
              [SetSize 200; SetRating "PG"; SetSecure true] _
              gridaphobe_constructed eq_refl)))).
Defined.

(* ================================================================== *)
(** ** Further properties: the profile *)

Section FetchFacts.

Lemma index_head {A : Type} (a : A) (l : list A) : Py.index (a :: l) 0 = Ok a.
Proof.
  unfold Py.index. cbn [List.length Z.ltb Z.compare].
  rewrite Nat2Z.inj_succ.
  replace (0 <? Z.succ (Z.of_nat (List.length l))) with true
    by (symmetry; apply Z.ltb_lt; lia).
  reflexivity.
Qed.

Lemma first_entry_head d v rest :
  Py.dict_get "entry" d = Some (PList (v :: rest)) ->
  first_entry (Ok (PDict d)) = Ok v.
Proof.
  intros H. unfold first_entry, rbind. cbn [Py.getitem]. rewrite H.
  apply index_head.
Qed.

Lemma read_cached (n : nat) (w : World) :
  is_None (_profile (fst w)) = false -> read_profile n w = w.
Proof.
  induction n as [|n IH]; intros H; [reflexivity|].
  destruct w as [g net]. cbn [read_profile].
  rewrite (profile_cached g net H). cbn [snd]. now apply IH.
Qed.

Lemma view_unfetched (key : string) (g : Gravatar) (net : Net) d :
  _profile g = PNone ->
  first_entry (reply net (List.length (calls net)) (profile_url g))
    = Ok (PDict d) ->
  try_except (p <- profile ;; lift (Py.getitem p (PStr key))) is_KeyError
             (ret (PList [])) (g, net)
  = (Ok (item_or_empty key d),
     (with_profile g (PDict d),
      mkNet (reply net) (calls net ++ [profile_url g]))).
Proof.
  intros H Hf. unfold try_except, bind, lift, ret, item_or_empty.
  rewrite (profile_unfetched g net H), Hf. cbn [Py.getitem].
  destruct (Py.dict_get key d); reflexivity.
Qed.

Lemma view_not_mapping (key : string) (g : Gravatar) (net : Net) :
  match _profile g with
  | PNone | PDict _ => False
  | _ => True
  end ->
  try_except (p <- profile ;; lift (Py.getitem p (PStr key))) is_KeyError
             (ret (PList [])) (g, net)
  = (Raise TypeError, (g, net)).
Proof.
  intros H. unfold try_except, bind, lift, ret.
  rewrite profile_cached by (destruct (_profile g); easy).
  destruct (_profile g); try contradiction; reflexivity.
Qed.

Lemma verified_only_stops (l1 : list pyval) (a : pyval) (l2 : list pyval) :
  Forall (fun x => verified_field x <> None) l1 ->
  verified_field a = None ->
  verified_only (l1 ++ a :: l2)
  = Raise match a with
          | PDict _ => KeyError (PStr "verified")
          | _ => TypeError
          end.
Proof.
  intros H Ha. induction H as [|x l1 Hx _ IH].
  - cbn [app verified_only].
    destruct a as [| | | | |e]; try reflexivity.
    cbn [verified_field] in Ha. cbn [Py.getitem]. now rewrite Ha.
  - cbn [app verified_only]. rewrite IH.
    destruct x as [| | | | |e]; try (now elim Hx).
    cbn [verified_field Py.getitem] in *.
    destruct (Py.dict_get "verified" e); [reflexivity | now elim Hx].
Qed.

End FetchFacts.

(** X9. When the fetched document is a mapping whose "entry" is a
    non-empty list, the first read of [profile] makes one request, to the
    HTTP profile address of the hash whatever the secure flag is, returns
    the first element of the list and stores it; the other elements are
    ignored. When that element is not null, later reads return it without
    a request. *)
Theorem profile_is_first_entry :
  forall (g : Gravatar) (net : Net) (d : list (string * pyval))
         (v : pyval) (rest : list pyval),
    _profile g = PNone ->
    reply net (List.length (calls net))
          ("http://www.gravatar.com/" ++ hash g ++ ".json") = Ok (PDict d) ->
    Py.dict_get "entry" d = Some (PList (v :: rest)) ->
    let w := (with_profile g v,
              mkNet (reply net)
                (calls net
                 ++ ["http://www.gravatar.com/" ++ hash g ++ ".json"])) in
    profile (g, net) = (Ok v, w)
    /\ (v <> PNone -> profile w = (Ok v, w)).
Proof.
  intros g net d v rest H Hr Hd w.
  change ("http://www.gravatar.com/" ++ hash g ++ ".json")
    with (profile_url g) in *.
  split.
  - rewrite (profile_unfetched g net H), Hr, (first_entry_head d v rest Hd).
    reflexivity.
  - intros Hv. unfold w. rewrite profile_cached.
    + destruct g; reflexivity.
    + destruct g; cbn. destruct v; try reflexivity. now elim Hv.
Qed.

Lemma profile_is_first_entry_witness :
  let w := (with_profile gridaphobe (PDict sample_profile),
            mkNet (reply (net_serving sample_document))
              ["http://www.gravatar.com/16b87da510d278999c892cdbdd55c1b6.json"]) in
  profile (gridaphobe, net_serving sample_document)
    = (Ok (PDict sample_profile), w)
  /\ profile w = (Ok (PDict sample_profile), w).
Proof.
  intros w.
  destruct (profile_is_first_entry gridaphobe (net_serving sample_document)
              [("entry", PList [PDict sample_profile; PDict []])]
              (PDict sample_profile) [PDict []] eq_refl eq_refl eq_refl)
    as [H1 H2].
  split; [exact H1 | apply H2; discriminate].
Defined.

(** X10. The first read of [profile] stores and returns the empty
    mapping, raising nothing, when the request or the parse raises, when
    the document is a list, when it is a mapping without "entry", and when
    its "entry" is the empty list. *)
Theorem profile_is_empty_on_bad_document :
  forall (g : Gravatar) (net : Net),
    _profile g = PNone ->
    match reply net (List.length (calls net)) (profile_url g) with
    | Raise _ => True
    | Ok (PList _) => True
    | Ok (PDict d) =>
        Py.dict_get "entry" d = None
        \/ Py.dict_get "entry" d = Some (PList [])
    | Ok _ => False
    end ->
    profile (g, net)
    = (Ok (PDict []),
       (with_profile g (PDict []),
        mkNet (reply net) (calls net ++ [profile_url g]))).
Proof.
  intros g net H Hr. rewrite (profile_unfetched g net H).
  destruct (reply net (List.length (calls net)) (profile_url g))
    as [[| | | |l|d]|e]; try contradiction; try reflexivity.
  unfold first_entry, rbind. cbn [Py.getitem].
  destruct Hr as [-> | ->]; reflexivity.
Qed.

Lemma profile_is_empty_on_bad_document_witness :
  fst (profile (gridaphobe, net_serving (PDict [("entry", PList [])])))
    = Ok (PDict [])
  /\ fst (profile (gridaphobe, net_serving (PDict [("error", PStr "x")])))
    = Ok (PDict []).
Proof.
  split.
  - rewrite (profile_is_empty_on_bad_document gridaphobe
               (net_serving (PDict [("entry", PList [])])) eq_refl).
    + reflexivity.
    + right. reflexivity.
  - rewrite (profile_is_empty_on_bad_document gridaphobe
               (net_serving (PDict [("error", PStr "x")])) eq_refl).
    + reflexivity.
    + left. reflexivity.
Defined.

(** X11. However many times [profile] is read on an instance that has
    no profile yet, one request is made and no more, provided the first
    entry fetched is not null: after any number of reads beyond the first
    the instance and the list of requests are as the first read left
    them. *)
Theorem many_reads_one_request :
  forall (n : nat) (g : Gravatar) (net : Net),
    _profile g = PNone ->
    first_entry (reply net (List.length (calls net)) (profile_url g))
      <> Ok PNone ->
    read_profile (S n) (g, net) = snd (profile (g, net))
    /\ calls (snd (read_profile (S n) (g, net)))
       = (calls net ++ [profile_url g])%list.
Proof.
  intros n g net H Hf. cbn [read_profile].
  rewrite (profile_unfetched g net H). cbn [snd].
  rewrite read_cached; [split; reflexivity|].
  cbn [fst]. destruct g. cbn.
  destruct (first_entry _) as [v|e]; [|reflexivity].
  destruct v; try reflexivity. now elim Hf.
Qed.

Lemma many_reads_one_request_witness :
  calls (snd (read_profile 5 (gridaphobe, net_serving sample_document)))
  = ["http://www.gravatar.com/16b87da510d278999c892cdbdd55c1b6.json"].
Proof.
  refine (proj2 (many_reads_one_request 4 gridaphobe
                   (net_serving sample_document) eq_refl _)).
  discriminate.
Defined.

(** X12. A view read on an instance that has no profile yet fetches it:
    when the first entry fetched is a mapping, [urls] makes the one
    request, stores the mapping and returns what is bound to "urls" (the
    empty list when nothing is); the views read after it ([photos],
    [emails], [accounts]) return their bindings from the stored mapping
    with no further request. *)
Theorem first_view_fetches :
  forall (g : Gravatar) (net : Net) (d : list (string * pyval)),
    _profile g = PNone ->
    first_entry (reply net (List.length (calls net)) (profile_url g))
      = Ok (PDict d) ->
    let w := (with_profile g (PDict d),
              mkNet (reply net) (calls net ++ [profile_url g])) in
    urls (g, net) = (Ok (item_or_empty "urls" d), w)
    /\ photos w = (Ok (item_or_empty "photos" d), w)
    /\ emails w = (Ok (item_or_empty "emails" d), w)
    /\ accounts w = (Ok (item_or_empty "accounts" d), w).
Proof.
  intros g net d H Hf w.
  assert (Hw : _profile (fst w) = PDict d) by (destruct g; reflexivity).
  split; [exact (view_unfetched "urls" g net d H Hf)|].
  split; [exact (view_cached "photos" _ _ d Hw)|].
  split; [exact (view_cached "emails" _ _ d Hw)
         | exact (view_cached "accounts" _ _ d Hw)].
Qed.

Lemma first_view_fetches_witness :
  let w := (with_profile gridaphobe (PDict sample_profile),
            mkNet (reply (net_serving sample_document))
              ["http://www.gravatar.com/16b87da510d278999c892cdbdd55c1b6.json"]) in
  urls (gridaphobe, net_serving sample_document)
    = (Ok (PList [PDict [("value", PStr "http://example.com")]]), w)
  /\ photos w = (Ok (PList []), w).
Proof.
  intros w.
  destruct (first_view_fetches gridaphobe (net_serving sample_document)
              sample_profile eq_refl eq_refl) as (H1 & H2 & _).
  split; [exact H1 | exact H2].
Defined.

(** X13. The views tolerate a missing key and nothing else: when the
    stored profile is not a mapping (a list, a string, a number or a
    boolean, as a document whose first entry is one of these leaves it),
    [urls], [accounts], [ims], [photos], [emails] and [verified_accounts]
    all raise [TypeError], with no request. *)
Theorem views_raise_on_non_mapping :
  forall (g : Gravatar) (net : Net),
    match _profile g with
    | PNone | PDict _ => False
    | _ => True
    end ->
    urls (g, net) = (Raise TypeError, (g, net))
    /\ accounts (g, net) = (Raise TypeError, (g, net))
    /\ ims (g, net) = (Raise TypeError, (g, net))
    /\ photos (g, net) = (Raise TypeError, (g, net))
    /\ emails (g, net) = (Raise TypeError, (g, net))
    /\ verified_accounts (g, net) = (Raise TypeError, (g, net)).
Proof.
  intros g net H.
  split; [exact (view_not_mapping "urls" g net H)|].
  split; [exact (view_not_mapping "accounts" g net H)|].
  split; [exact (view_not_mapping "accounts" g net H)|].
  split; [exact (view_not_mapping "photos" g net H)|].
  split; [exact (view_not_mapping "emails" g net H)|].
  unfold verified_accounts, bind.
  change (accounts (g, net)) with
    (try_except (p <- profile ;; lift (Py.getitem p (PStr "accounts")))
       is_KeyError (ret (PList [])) (g, net)).
  now rewrite (view_not_mapping "accounts" g net H).
Qed.

Lemma views_raise_on_non_mapping_witness :
  let g := with_profile gridaphobe (PStr "not found") in
  urls (g, net_down) = (Raise TypeError, (g, net_down))
  /\ verified_accounts (g, net_down) = (Raise TypeError, (g, net_down)).
Proof.
  intros g.
  destruct (views_raise_on_non_mapping g net_down I)
    as (H1 & _ & _ & _ & _ & H2).
  split; [exact H1 | exact H2].
Defined.

(** X14. [verified_accounts] stops at the first account it cannot read:
    when the accounts before it all have a "verified" field, an account
    that is a mapping without the field makes the view raise [KeyError]
    for "verified", and an account that is not a mapping makes it raise
    [TypeError], whatever accounts follow; nothing is returned and the
    instance is unchanged. *)
Theorem verified_accounts_stops_at_unreadable :
  forall (g : Gravatar) (net : Net) (d : list (string * pyval))
         (l1 : list pyval) (a : pyval) (l2 : list pyval),
    _profile g = PDict d ->
    Py.dict_get "accounts" d = Some (PList (l1 ++ a :: l2)) ->
    Forall (fun x => verified_field x <> None) l1 ->
    verified_field a = None ->
    verified_accounts (g, net)
    = (Raise match a with
             | PDict _ => KeyError (PStr "verified")
             | _ => TypeError
             end, (g, net)).
Proof.
  intros g net d l1 a l2 H Hd Hl Ha.
  unfold verified_accounts, bind.
  change (accounts (g, net)) with
    (try_except (p <- profile ;; lift (Py.getitem p (PStr "accounts")))
       is_KeyError (ret (PList [])) (g, net)).
  rewrite (view_cached "accounts" g net d H). unfold item_or_empty.
  rewrite Hd. unfold lift. cbn [Py.iter].
  now rewrite (verified_only_stops l1 a l2 Hl Ha).
Qed.

Lemma verified_accounts_stops_at_unreadable_witness :
  let yes := PDict [("shortname", PStr "twitter"); ("verified", PStr "true")] in
  let g := with_profile gridaphobe
             (PDict [("accounts", PList [yes; PStr "flickr"; yes])]) in
  verified_accounts (g, net_down) = (Raise TypeError, (g, net_down)).
Proof.
  intros yes g.
  refine (verified_accounts_stops_at_unreadable g net_down
            [("accounts", PList [yes; PStr "flickr"; yes])]
            [yes] (PStr "flickr") [yes] eq_refl eq_refl _ eq_refl).
  repeat constructor; discriminate.
Defined.
